(** * dai_instance_transfer.py: transfer of a Driverless AI instance between
      two Steam users

    A shallow embedding of [src/dai_instance_transfer.py].  The script is
    orchestration over third-party libraries (click, configparser, h2o_authn,
    h2osteam).  Their objects are opaque to the script, so every interaction
    with them is an explicit step of a small state-and-exception monad:

    - the files of the working directory are a finite map;
    - the user's answer to the confirmation prompt is part of the world;
    - every call into the SDK asks the world for a reply, which may depend on
      everything that happened before, and is recorded in a trace.

    Theorems quantify over the world, hence over every behaviour of the remote
    platform. *)

From Stdlib Require Import String Ascii List ZArith Lia Bool.
From stdpp Require Import base option gmap strings list pretty.

Import ListNotations.
Local Open Scope string_scope.
Local Open Scope list_scope.

(** ** Python strings *)

Module Str.

(** [c in chars] *)
Fixpoint mem (c : ascii) (chars : string) : bool :=
  match chars with
  | EmptyString => false
  | String d rest => Ascii.eqb c d || mem c rest
  end.

(** [str.rstrip(chars)]: drop the longest suffix made of characters of
    [chars]. *)
Fixpoint rstrip (chars s : string) : string :=
  match s with
  | EmptyString => EmptyString
  | String c rest =>
      match rstrip chars rest with
      | EmptyString => if mem c chars then EmptyString else String c EmptyString
      | kept => String c kept
      end
  end.

(** [c * n] for a one-character string [c]. *)
Fixpoint replicate (n : nat) (c : ascii) : string :=
  match n with
  | O => EmptyString
  | S n' => String c (replicate n' c)
  end.

(** [s.endswith(c)] for a single character. *)
Fixpoint ends_with (c : ascii) (s : string) : bool :=
  match s with
  | EmptyString => false
  | String d EmptyString => Ascii.eqb d c
  | String _ rest => ends_with c rest
  end.

End Str.

(** ** click option declarations

    [click.option(flag, help=..., required=..., default=...)] does not parse
    anything: it returns a decorator, a function object that attaches the
    declaration to the callback it is later applied to. *)

Record OptionDecl := {
  opt_flag : string;
  opt_help : string;
  opt_required : bool;
  opt_default : option string;
}.

(** ** Python values the script handles *)

Inductive pyval :=
| PyNone
| PyStr (s : string)
| PyInt (n : Z)
| PyFunction (attaches : OptionDecl)   (* the decorator returned by click.option *)
| PyObject (ref : nat).                (* an object of an SDK, known by identity *)

(** [a == b] where [b] is a [str] literal: only an equal [str] is equal. *)
Definition py_eq_str (a : pyval) (lit : string) : bool :=
  match a with
  | PyStr s => String.eqb s lit
  | _ => false
  end.

(** [x is None] *)
Definition is_None (a : pyval) : bool :=
  match a with PyNone => true | _ => false end.

(** [f"{x}"] *)
Definition py_format (a : pyval) : string :=
  match a with
  | PyNone => "None"
  | PyStr s => s
  | PyInt n => pretty n
  | PyFunction _ => "<function option.<locals>.decorator>"
  | PyObject _ => "<object>"
  end.

Definition py_type_name (a : pyval) : string :=
  match a with
  | PyNone => "NoneType"
  | PyStr _ => "str"
  | PyInt _ => "int"
  | PyFunction _ => "function"
  | PyObject _ => "object"
  end.

(** ** Exceptions

    Every constructor is a subclass of Python's [Exception]
    ([click.exceptions.Abort] derives from [RuntimeError]). *)

Inductive exn :=
| AttributeError (msg : string)
| KeyError (key : string)
| ConfigParserError (msg : string)            (* configparser.Error while reading *)
| InterpolationSyntaxError (option section : string)
| InterpolationMissingOptionError (option section reference : string)
| InterpolationDepthError (option section : string)
| ConfigException (msg : string)              (* line 19 *)
| InstanceNotFoundException (msg : string)    (* line 23 *)
| Abort                                       (* click.exceptions.Abort *)
| SdkError (msg : string).                    (* any Exception raised inside an SDK *)

Definition exn_repr (e : exn) : string :=
  match e with
  | AttributeError m => "AttributeError: " ++ m
  | KeyError k => "KeyError: '" ++ k ++ "'"
  | ConfigParserError m => "configparser.Error: " ++ m
  | InterpolationSyntaxError o _ =>
      "configparser.InterpolationSyntaxError: bad use of '%' in option " ++ o
  | InterpolationMissingOptionError o _ r =>
      "configparser.InterpolationMissingOptionError: option " ++ o
        ++ " refers to the missing " ++ r
  | InterpolationDepthError o _ =>
      "configparser.InterpolationDepthError: option " ++ o
  | ConfigException m => "ConfigException: " ++ m
  | InstanceNotFoundException m => "InstanceNotFoundException: " ++ m
  | Abort => "click.exceptions.Abort"
  | SdkError m => "Exception: " ++ m
  end.

(** ["".join(traceback.format_exception(t, v, tb))], stack frames left out. *)
Definition format_exception (e : exn) : string :=
  "Traceback (most recent call last):" ++ String "010" (exn_repr e).

(** ** The outside world *)

(** Calls into h2o_authn, h2osteam and the Driverless AI client. *)
Inductive call :=
| TokenProvider_init (refresh_token client_id token_endpoint_url : pyval)
| TokenProvider_call (token_provider : pyval)
| TokenProvider_close (token_provider : pyval)
| h2osteam_login (url access_token : pyval)
| h2osteam_api
| DriverlessClient_init
| DriverlessClient_get_instance (client name created_by : pyval)
| set_driverless_instance_owner (api instance_id owner : pyval)
| getattr (obj : pyval) (name : string)
| DriverlessInstance_stop (inst : pyval)
| DriverlessInstance_start (inst : pyval) (kwargs : list (string * pyval))
| DriverlessInstance_connect (inst : pyval)
| admin_transfer_entities (admin username_from username_to : pyval).

Inductive reply :=
| Returned (v : pyval)
| Raised (msg : string).

Inductive event :=
| Sdk (c : call) (r : reply)               (* a call into an SDK and how it ended *)
| Prompt (text : string) (answer : bool)   (* click.confirm *)
| LogInfo (msg : string)                   (* logger.info *)
| LogError (msg : string)                  (* logger.error *)
| Terminal (msg : string).                 (* a message click or the interpreter prints: error, usage, help *)

(** What [configparser.ConfigParser().read] makes of a file: for each
    section, and for the default section, the options (in lower case, as
    the parser keeps them) with their text as written. *)
Record Ini := {
  ini_defaults : gmap string string;
  ini_sections : gmap string (gmap string string);
}.

Inductive FileContent :=
| Malformed (msg : string)
| Parsed (ini : Ini).

Record World := {
  cwd : gmap string FileContent;          (* files of the working directory *)
  user_confirms : string -> bool;         (* the answer typed at a prompt *)
  sdk : list event -> call -> reply;      (* the platform, given the history *)
}.

(** ** Control flow: state (the trace), exceptions, and [sys.exit] *)

Inductive result (A : Type) :=
| Return (a : A)
| Raise (e : exn)
| SystemExit (code : Z).

Arguments Return {A} a.
Arguments Raise {A} e.
Arguments SystemExit {A} code.

Definition M (A : Type) : Type := World -> list event -> result A * list event.

Definition ret {A} (a : A) : M A := fun _ t => (Return a, t).

Definition bind {A B} (m : M A) (k : A -> M B) : M B := fun w t =>
  match m w t with
  | (Return a, t') => k a w t'
  | (Raise e, t') => (Raise e, t')
  | (SystemExit c, t') => (SystemExit c, t')
  end.

Definition raise {A} (e : exn) : M A := fun _ t => (Raise e, t).

Definition sys_exit {A} (code : Z) : M A := fun _ t => (SystemExit code, t).

Definition emit (e : event) : M unit := fun _ t => (Return tt, t ++ [e]).

Definition ask_sdk (c : call) : M pyval := fun w t =>
  match sdk w t c with
  | Returned v => (Return v, t ++ [Sdk c (Returned v)])
  | Raised msg => (Raise (SdkError msg), t ++ [Sdk c (Raised msg)])
  end.

Definition read_world {A} (f : World -> A) : M A := fun w t => (Return (f w), t).

(** Reading a property whose getter computes, and may raise. *)
Definition read_property {A} (value : exn + A) : M A := fun _ t =>
  match value with
  | inr a => (Return a, t)
  | inl e => (Raise e, t)
  end.

(** [try: body / except Exception: handler] *)
Definition try_except {A} (body : M A) (handler : exn -> M A) : M A := fun w t =>
  match body w t with
  | (Raise e, t') => handler e w t'
  | other => other
  end.

(** [with closing(thing) as x: body]: [thing.close()] runs however the body
    ends; an exception of the body goes on afterwards, unless [close] raises
    one of its own. *)
Definition with_closing {A} (thing : pyval) (body : pyval -> M A) : M A := fun w t =>
  let '(r, t1) := body thing w t in
  match ask_sdk (TokenProvider_close thing) w t1 with
  | (Return _, t2) => (r, t2)
  | (Raise e, t2) => (Raise e, t2)
  | (SystemExit c, t2) => (SystemExit c, t2)
  end.

Declare Scope py_scope.
Delimit Scope py_scope with py.
Notation "x <- m ;; k" := (bind m (fun x => k))
  (at level 100, m at next level, right associativity) : py_scope.
Notation "m ;; k" := (bind m (fun _ => k))
  (at level 100, right associativity) : py_scope.
Local Open Scope py_scope.

(** ** Builtins and libraries the script calls *)

(** [x.rstrip(chars)]: only a [str] has the method. *)
Definition str_rstrip (x : pyval) (chars : string) : M string :=
  match x with
  | PyStr s => ret (Str.rstrip chars s)
  | other =>
      raise (AttributeError
               ("'" ++ py_type_name other ++ "' object has no attribute 'rstrip'"))
  end.

(** [d[key]] on a [dict] with [str] keys. *)
Definition dict_getitem (d : gmap string pyval) (key : string) : M pyval :=
  match d !! key with
  | Some v => ret v
  | None => raise (KeyError key)
  end.

(** [os.path.exists(path)] *)
Definition os_path_exists (path : string) : M bool :=
  read_world (fun w => match cwd w !! path with Some _ => true | None => false end).

Module configparser.

Definition empty : Ini := {| ini_defaults := ∅; ini_sections := ∅ |}.

(** [config = ConfigParser(); config.read(path)]: a file that cannot be
    opened is skipped, a malformed one raises. *)
Definition read (path : string) : M Ini := fun w t =>
  match cwd w !! path with
  | None => (Return empty, t)
  | Some (Parsed ini) => (Return ini, t)
  | Some (Malformed msg) => (Raise (ConfigParserError msg), t)
  end.

(** A section proxy remembers its parser and the section's name. *)
Record SectionProxy := { proxy_parser : Ini; proxy_name : string }.

Definition default_section : string := "DEFAULT".

(** [config[key]] *)
Definition getitem (config : Ini) (key : string) : M SectionProxy :=
  if String.eqb key default_section then
    ret {| proxy_parser := config; proxy_name := key |}
  else
    match ini_sections config !! key with
    | Some _ => ret {| proxy_parser := config; proxy_name := key |}
    | None => raise (KeyError key)
    end.

(** [optionxform]: [str.lower], on the letters A to Z. *)
Definition lower_char (c : ascii) : ascii :=
  let n := nat_of_ascii c in
  if (65 <=? n)%nat && (n <=? 90)%nat then ascii_of_nat (n + 32) else c.

Fixpoint optionxform (s : string) : string :=
  match s with
  | EmptyString => EmptyString
  | String c rest => String (lower_char c) (optionxform rest)
  end.

Definition MAX_INTERPOLATION_DEPTH : nat := 10.

(** Where [BasicInterpolation._interpolate_some] stands in the text it
    expands: in plain text, after a ['%'], inside the name of [%(name)s], or
    after the [')'] that closes the name. *)
Inductive Expanding :=
| Plain
| AfterPercent
| InName (name : string)
| AfterName (name : string).

(** The loop of [_interpolate_some] over [rest]: ["%%"] gives ['%'],
    ["%(name)s"] gives the value of [name], itself expanded by [deeper] when
    it holds a ['%'], and any other use of ['%'] is an error. *)
Fixpoint expand (deeper : string -> string -> exn + string)
    (option section : string) (map : string -> Datatypes.option string)
    (state : Expanding) (rest accum : string) : exn + string :=
  match rest with
  | EmptyString =>
      match state with
      | Plain => inr accum
      | _ => inl (InterpolationSyntaxError option section)
      end
  | String c rest' =>
      match state with
      | Plain =>
          if Ascii.eqb c "%" then expand deeper option section map AfterPercent rest' accum
          else expand deeper option section map Plain rest'
                 (accum ++ String c EmptyString)
      | AfterPercent =>
          if Ascii.eqb c "%" then
            expand deeper option section map Plain rest' (accum ++ "%")
          else if Ascii.eqb c "(" then
            expand deeper option section map (InName EmptyString) rest' accum
          else inl (InterpolationSyntaxError option section)
      | InName name =>
          if Ascii.eqb c ")" then
            match name with
            | EmptyString => inl (InterpolationSyntaxError option section)
            | _ => expand deeper option section map (AfterName name) rest' accum
            end
          else expand deeper option section map
                 (InName (name ++ String c EmptyString)) rest' accum
      | AfterName name =>
          if Ascii.eqb c "s" then
            let var := optionxform name in
            match map var with
            | None => inl (InterpolationMissingOptionError option section var)
            | Some v =>
                if Str.mem "%" v then
                  match deeper accum v with
                  | inl e => inl e
                  | inr accum' => expand deeper option section map Plain rest' accum'
                  end
                else expand deeper option section map Plain rest' (accum ++ v)
            end
          else inl (InterpolationSyntaxError option section)
      end
  end.

(** [_interpolate_some], with [depths_left] the depths still allowed: the
    call at depth 1 has all [MAX_INTERPOLATION_DEPTH] of them. *)
Fixpoint _interpolate_some (depths_left : nat) (option section : string)
    (map : string -> Datatypes.option string) (accum rest : string) : exn + string :=
  match depths_left with
  | O => inl (InterpolationDepthError option section)
  | S fewer =>
      expand (fun accum' v => _interpolate_some fewer option section map accum' v)
        option section map Plain rest accum
  end.

(** [BasicInterpolation.before_get] *)
Definition before_get (option section : string)
    (map : string -> Datatypes.option string) (value : string) : exn + string :=
  _interpolate_some MAX_INTERPOLATION_DEPTH option section map EmptyString value.

(** [_unify_values]: the section's options over the default section's; a
    section that does not exist has none, unless it is the default one. *)
Definition _unify_values (config : Ini) (section : string)
  : Datatypes.option (string -> Datatypes.option string) :=
  let chain (items : gmap string string) : string -> Datatypes.option string :=
    fun key =>
      match items !! key with
      | Some v => Some v
      | None => ini_defaults config !! key
      end in
  match ini_sections config !! section with
  | Some items => Some (chain items)
  | None => if String.eqb section default_section then Some (chain ∅) else None
  end.

(** [proxy.get(option)], that is [parser.get(name, option, fallback=None)]:
    the section's text for the option, else the default section's, expanded
    by the interpolation; [None] when there is no such option. *)
Definition get (proxy : SectionProxy) (option : string) : exn + pyval :=
  match _unify_values (proxy_parser proxy) (proxy_name proxy) with
  | None => inr PyNone
  | Some d =>
      let option := optionxform option in
      match d option with
      | None => inr PyNone
      | Some value =>
          match before_get option (proxy_name proxy) d value with
          | inl e => inl e
          | inr text => inr (PyStr text)
          end
      end
  end.

End configparser.

(** [click.confirm(text, abort=abort)] *)
Definition click_confirm (text : string) (abort : bool) : M bool := fun w t =>
  let answer := user_confirms w text in
  if answer then (Return true, t ++ [Prompt text true])
  else if abort then (Raise Abort, t ++ [Prompt text false])
  else (Return false, t ++ [Prompt text false]).

Definition logger_info (msg : string) : M unit := emit (LogInfo msg).
Definition logger_error (msg : string) : M unit := emit (LogError msg).

(** ** The classes of the script *)

(** Lines 27-48. *)
Module Instance.

Record t := { instance : pyval }.

Definition id (self : t) : M pyval := ask_sdk (getattr (instance self) "id").

Definition status (self : t) : M pyval := ask_sdk (getattr (instance self) "status").

Definition stop (self : t) : M unit :=
  _ <- ask_sdk (DriverlessInstance_stop (instance self)) ;; ret tt.

Definition start (self : t) (resources : list (string * pyval)) : M unit :=
  _ <- ask_sdk (DriverlessInstance_start (instance self) resources) ;; ret tt.

Definition connect (self : t) : M pyval :=
  ask_sdk (DriverlessInstance_connect (instance self)).

End Instance.

(** Lines 51-76. *)
Module Config.

Record t := { steam_url : string; _config : configparser.SectionProxy }.

Definition _load_config (steam_url : string) : M configparser.SectionProxy :=
  let config_file := "h2oai.config" in
  found <- os_path_exists config_file ;;
  if negb found then
    raise (ConfigException ("Config file does not exist: " ++ config_file))
  else
    config <- configparser.read config_file ;;
    configparser.getitem config steam_url.

Definition __init__ (steam_url : pyval) : M t :=
  stripped <- str_rstrip steam_url "/" ;;
  section <- _load_config stripped ;;
  ret {| steam_url := stripped; _config := section |}.

Definition refresh_token (self : t) : exn + pyval :=
  configparser.get (_config self) "refresh_token".

Definition client_id (self : t) : exn + pyval :=
  configparser.get (_config self) "client_id".

Definition token_endpoint (self : t) : exn + pyval :=
  configparser.get (_config self) "token_endpoint".

End Config.

(** Lines 79-104. *)
Module InstanceService.

Record t := { config : Config.t }.

Definition steam_login (self : t) : M unit :=
  refresh_token <- read_property (Config.refresh_token (config self)) ;;
  client_id <- read_property (Config.client_id (config self)) ;;
  token_endpoint_url <- read_property (Config.token_endpoint (config self)) ;;
  thing <- ask_sdk (TokenProvider_init refresh_token client_id token_endpoint_url) ;;
  with_closing thing (fun token_provider =>
    access_token <- ask_sdk (TokenProvider_call token_provider) ;;
    _ <- ask_sdk (h2osteam_login (PyStr (Config.steam_url (config self))) access_token) ;;
    ret tt).

Definition get_instance (self : t) (instance_name owner : pyval) : M Instance.t :=
  client <- ask_sdk DriverlessClient_init ;;
  instance <- ask_sdk (DriverlessClient_get_instance client instance_name owner) ;;
  if is_None instance then
    raise (InstanceNotFoundException
             ("Instance '" ++ py_format instance_name ++ "' belonging to '"
                ++ py_format owner ++ "' does not exist."))
  else ret {| Instance.instance := instance |}.

Definition set_instance_owner (self : t) (instance : Instance.t) (owner : pyval)
  : M unit :=
  api <- ask_sdk h2osteam_api ;;
  instance_id <- Instance.id instance ;;
  _ <- ask_sdk (set_driverless_instance_owner api instance_id owner) ;;
  ret tt.

Definition transfer_entities (self : t) (instance : Instance.t)
    (username_from username_to : pyval) : M unit :=
  client <- Instance.connect instance ;;
  backend <- ask_sdk (getattr client "_backend") ;;
  dai_admin <- ask_sdk (getattr backend "admin") ;;
  _ <- ask_sdk (admin_transfer_entities dai_admin username_from username_to) ;;
  ret tt.

End InstanceService.

(** Lines 107-130. *)
Module CommandHandler.

Record t := { service : InstanceService.t }.

Definition confirmation_text (instance_name old_user_name new_user_name : pyval)
  : string :=
  "Do you want to transfer the instance '" ++ py_format instance_name
    ++ "' from '" ++ py_format old_user_name
    ++ "' to '" ++ py_format new_user_name
    ++ "' (this will shut the instance down and interrupt any running jobs)?".

Definition handle (self : t)
    (admin_user_name instance_name old_user_name new_user_name
       instance_cpu instance_mem : pyval) : M unit :=
  InstanceService.steam_login (service self) ;;
  _ <- click_confirm
         (confirmation_text instance_name old_user_name new_user_name) true ;;
  instance <- InstanceService.get_instance (service self) instance_name old_user_name ;;
  InstanceService.set_instance_owner (service self) instance admin_user_name ;;
  status <- Instance.status instance ;;
  (if py_eq_str status "running" then Instance.stop instance else ret tt) ;;
  let resources := [("cpu_count", instance_cpu); ("memory_gb", instance_mem)] in
  Instance.start instance resources ;;
  InstanceService.transfer_entities (service self) instance old_user_name new_user_name ;;
  Instance.stop instance ;;
  InstanceService.set_instance_owner (service self) instance new_user_name ;;
  logger_info "Transfer complete.".

End CommandHandler.

(** ** click: commands, their parameters, and the standalone entry point

    What the library does with a command line, as far as a command built
    from [click.command], [click.pass_context] and [click.option] goes: long
    options taking one value, the automatic [--help] flag, required options,
    and the exit codes of [Command.main] in standalone mode. *)
Module click.

Record Context := { ctx_params : list (string * pyval) }.

(** A Python function together with the declarations that option
    decorators have attached to it ([__click_params__]). *)
Record Function := {
  click_params : list OptionDecl;
  code : Context -> M unit;
}.

Record Command := {
  params : list OptionDecl;
  callback : Context -> M unit;
}.

(** [click.option(flag, ...)]: the decorator, a function object. *)
Definition option (flag help : string) (required : bool) (default : option string)
  : pyval :=
  PyFunction {| opt_flag := flag; opt_help := help;
                opt_required := required; opt_default := default |}.

(** Applying a decorator made by [click.option] to a function. *)
Definition decorate (decorator : pyval) (f : Function) : Function :=
  match decorator with
  | PyFunction d => {| click_params := click_params f ++ [d]; code := code f |}
  | _ => f
  end.

(** [@click.pass_context] on a plain [def]: the function receives the
    context; nothing is attached to it. *)
Definition pass_context (f : Context -> M unit) : Function :=
  {| click_params := []; code := f |}.

(** [@click.command()]: the parameters are the attached declarations, in
    the order they are written above the [def]. *)
Definition command (f : Function) : Command :=
  {| params := rev (click_params f); callback := code f |}.

Inductive UsageError :=
| NoSuchOption (name : string)
| BadOptionUsage (name : string)
| MissingParameter (flag : string)
| UnexpectedExtraArgument (args : list string).

Definition show (e : UsageError) : string :=
  match e with
  | NoSuchOption n => "Error: No such option: " ++ n
  | BadOptionUsage n => "Error: Option '" ++ n ++ "' is used wrongly."
  | MissingParameter f => "Error: Missing option '" ++ f ++ "'."
  | UnexpectedExtraArgument _ => "Error: Got unexpected extra argument"
  end.

Record Parsed := {
  given : list (string * string);   (* flag, value; the last one wins *)
  help_requested : bool;
  extra : list string;              (* positional arguments *)
}.

(** ["--name=value"] is split at the first ['=']. *)
Fixpoint split_eq (s : string) : string * Datatypes.option string :=
  match s with
  | EmptyString => (EmptyString, None)
  | String c rest =>
      if Ascii.eqb c "=" then (EmptyString, Some rest)
      else let '(name, value) := split_eq rest in (String c name, value)
  end.

Definition is_option_token (arg : string) : bool :=
  match arg with
  | String c (String _ _) => Ascii.eqb c "-"
  | _ => false
  end.

(** The name an unknown option is reported under: a long option as it was
    typed, a cluster of short options by its first letter. *)
Definition reported_name (arg name : string) : string :=
  match arg with
  | String "-" (String "-" _) => name
  | String c (String d _) => String c (String d EmptyString)
  | _ => name
  end.

Definition find_param (declared : list OptionDecl) (flag : string)
  : Datatypes.option OptionDecl :=
  List.find (fun d => String.eqb (opt_flag d) flag) declared.

(** The option parser: every argument is read before any parameter is
    processed; the first offending option ends it. *)
Fixpoint parse_args (declared : list OptionDecl) (argv : list string) (acc : Parsed)
  : UsageError + Parsed :=
  match argv with
  | [] => inr acc
  | arg :: rest =>
      if String.eqb arg "--" then
        inr {| given := given acc; help_requested := help_requested acc;
               extra := extra acc ++ rest |}
      else if is_option_token arg then
        let '(name, explicit) := split_eq arg in
        if String.eqb name "--help" then
          match explicit with
          | Some _ => inl (BadOptionUsage name)
          | None =>
              parse_args declared rest
                {| given := given acc; help_requested := true; extra := extra acc |}
          end
        else
          match find_param declared name with
          | None => inl (NoSuchOption (reported_name arg name))
          | Some d =>
              match explicit, rest with
              | Some v, _ =>
                  parse_args declared rest
                    {| given := (opt_flag d, v) :: given acc;
                       help_requested := help_requested acc; extra := extra acc |}
              | None, v :: rest' =>
                  parse_args declared rest'
                    {| given := (opt_flag d, v) :: given acc;
                       help_requested := help_requested acc; extra := extra acc |}
              | None, [] => inl (BadOptionUsage name)
              end
          end
      else
        parse_args declared rest
          {| given := given acc; help_requested := help_requested acc;
             extra := extra acc ++ [arg] |}
  end.

Definition lookup_given (flag : string) (given : list (string * string))
  : Datatypes.option string :=
  match List.find (fun kv => String.eqb (fst kv) flag) given with
  | Some kv => Some (snd kv)
  | None => None
  end.

(** The name of the parameter a flag sets: ["--steam-url"] sets
    [steam_url]. *)
Fixpoint lstrip_dashes (s : string) : string :=
  match s with
  | String "-" rest => lstrip_dashes rest
  | _ => s
  end.

Fixpoint dashes_to_underscores (s : string) : string :=
  match s with
  | EmptyString => EmptyString
  | String c rest =>
      String (if Ascii.eqb c "-" then "_"%char else c) (dashes_to_underscores rest)
  end.

Definition param_name (flag : string) : string :=
  dashes_to_underscores (lstrip_dashes flag).

(** The value of every declared parameter: the one given, else the default;
    a required one without either is an error. *)
Fixpoint process_params (declared : list OptionDecl) (given : list (string * string))
  : UsageError + list (string * pyval) :=
  match declared with
  | [] => inr []
  | d :: more =>
      let value :=
        match lookup_given (opt_flag d) given with
        | Some v => Some v
        | None => opt_default d
        end in
      match value with
      | None =>
          if opt_required d then inl (MissingParameter (opt_flag d))
          else
            match process_params more given with
            | inl e => inl e
            | inr vs => inr ((param_name (opt_flag d), PyNone) :: vs)
            end
      | Some v =>
          match process_params more given with
          | inl e => inl e
          | inr vs => inr ((param_name (opt_flag d), PyStr v) :: vs)
          end
      end
  end.

(** What [make_context] decides for a command line. *)
Inductive Dispatch :=
| Rejected (e : UsageError)
| ShowHelp
| Invoke (ctx : Context).

Definition make_context (cmd : Command) (argv : list string) : Dispatch :=
  match parse_args (params cmd) argv
          {| given := []; help_requested := false; extra := [] |} with
  | inl e => Rejected e
  | inr p =>
      if help_requested p then ShowHelp
      else
        match process_params (params cmd) (given p) with
        | inl e => Rejected e
        | inr values =>
            match extra p with
            | [] => Invoke {| ctx_params := values |}
            | _ :: _ => Rejected (UnexpectedExtraArgument (extra p))
            end
        end
  end.

Definition help_text (cmd : Command) : string :=
  "Usage: [OPTIONS]".

(** [cmd.main(argv)] in standalone mode: the exit code of the process and
    the trace it leaves.  A usage error exits with 2, [--help] with 0; the
    callback's [sys.exit(n)] exits with [n], its normal return with 0, and
    an exception it lets through with 1. *)
Definition main (cmd : Command) (argv : list string)
  : World -> list event -> Z * list event := fun w t =>
  match make_context cmd argv with
  | Rejected e => (2%Z, t ++ [Terminal (show e)])
  | ShowHelp => (0%Z, t ++ [Terminal (help_text cmd)])
  | Invoke ctx =>
      match callback cmd ctx w t with
      | (Return _, t') => (0%Z, t')
      | (SystemExit c, t') => (c, t')
      | (Raise Abort, t') => (1%Z, t' ++ [Terminal "Aborted!"])
      | (Raise e, t') => (1%Z, t' ++ [Terminal (format_exception e)])
      end
  end.

End click.

(** ** The command (lines 132-176) *)

Definition parse_command_line_options : gmap string pyval :=
  list_to_map
    [ ("admin_user_name",
       click.option "--admin-user-name"
         "HAIC user name of Steam administrator invoking the transfer." true None);
      ("steam_url",
       click.option "--steam-url" "HAIC Steam URL." true None);
      ("instance_name",
       click.option "--instance-name"
         "Name of Driverless AI instance on Steam to transfer." true None);
      ("old_user_name",
       click.option "--old-user-name" "HAIC user name of instance owner." true None);
      ("new_user_name",
       click.option "--new-user-name"
         "HAIC user name to transfer instance ownership to." true None);
      ("instance_cpu",
       click.option "--instance-cpu"
         "Use if transfer stalls because instance cpu is too low." false None);
      ("instance_mem",
       click.option "--instance-mem"
         "Use if transfer stalls because instance mem is too low." false None) ].

(** Lines 157-167, for the dictionary [options] bound at line 156. *)
Definition transfer_with (options : gmap string pyval) : M unit :=
  steam_url <- dict_getitem options "steam_url" ;;
  config <- Config.__init__ steam_url ;;
  let service := {| InstanceService.config := config |} in
  let handler := {| CommandHandler.service := service |} in
  admin_user_name <- dict_getitem options "admin_user_name" ;;
  instance_name <- dict_getitem options "instance_name" ;;
  old_user_name <- dict_getitem options "old_user_name" ;;
  new_user_name <- dict_getitem options "new_user_name" ;;
  instance_cpu <- dict_getitem options "instance_cpu" ;;
  instance_mem <- dict_getitem options "instance_mem" ;;
  CommandHandler.handle handler admin_user_name instance_name old_user_name
    new_user_name instance_cpu instance_mem.

(** The [try] block, lines 156-167. *)
Definition instance_transfer_body : M unit :=
  let options := parse_command_line_options in
  transfer_with options.

(** The [except Exception] block, lines 168-172. *)
Definition log_and_exit (e : exn) : M unit :=
  logger_error (format_exception e) ;;
  sys_exit 1.

(** Lines 148-172: [@click.command() @click.pass_context def instance_transfer(ctx)]. *)
Definition instance_transfer (ctx : click.Context) : M unit :=
  try_except instance_transfer_body log_and_exit.

Definition instance_transfer_command : click.Command :=
  click.command (click.pass_context instance_transfer).

(** Lines 175-176: the process, started with the arguments [argv]. *)
Definition script (argv : list string) : World -> list event -> Z * list event :=
  click.main instance_transfer_command argv.

(** ** Reading a trace *)

Global Instance OptionDecl_eq_dec : EqDecision OptionDecl.
Proof. solve_decision. Defined.

Global Instance pyval_eq_dec : EqDecision pyval.
Proof. solve_decision. Defined.

(** The steps of the workflow, as the specification names them. *)
Inductive step :=
| Authenticate (url : pyval)               (* h2osteam.login *)
| Confirm (answer : bool)                  (* the confirmation prompt *)
| Locate (name owner : pyval)              (* DriverlessClient().get_instance *)
| Reassign (owner : pyval)                 (* set_driverless_instance_owner *)
| Stop                                     (* instance.stop() *)
| Start (cpu_count memory_gb : pyval)      (* instance.start with the resources *)
| Transfer (username_from username_to : pyval)
| LogResult (msg : string).                (* logger.info *)

Global Instance step_eq_dec : EqDecision step.
Proof. solve_decision. Defined.

Definition kwarg (name : string) (kwargs : list (string * pyval)) : pyval :=
  match List.find (fun kv => String.eqb (fst kv) name) kwargs with
  | Some kv => snd kv
  | None => PyNone
  end.

Definition step_of_call (c : call) : option step :=
  match c with
  | h2osteam_login url _ => Some (Authenticate url)
  | DriverlessClient_get_instance _ name owner => Some (Locate name owner)
  | set_driverless_instance_owner _ _ owner => Some (Reassign owner)
  | DriverlessInstance_stop _ => Some Stop
  | DriverlessInstance_start _ kwargs =>
      Some (Start (kwarg "cpu_count" kwargs) (kwarg "memory_gb" kwargs))
  | admin_transfer_entities _ from to => Some (Transfer from to)
  | _ => None
  end.

Definition step_of (e : event) : option step :=
  match e with
  | Sdk c _ => step_of_call c
  | Prompt _ answer => Some (Confirm answer)
  | LogInfo msg => Some (LogResult msg)
  | _ => None
  end.

(** The steps a trace shows, in order. *)
Definition steps (evs : list event) : list step := omap step_of evs.

(** A remote instance operation: lookup, stop, start, entity transfer (with
    the connection it goes through) or owner reassignment. *)
Definition is_instance_operation (c : call) : bool :=
  match c with
  | DriverlessClient_get_instance _ _ _
  | set_driverless_instance_owner _ _ _
  | DriverlessInstance_stop _
  | DriverlessInstance_start _ _
  | DriverlessInstance_connect _
  | admin_transfer_entities _ _ _ => true
  | _ => false
  end.

Definition instance_operation_event (e : event) : bool :=
  match e with
  | Sdk c _ => is_instance_operation c
  | _ => false
  end.

Definition is_sdk_event (e : event) : bool :=
  match e with Sdk _ _ => true | _ => false end.

Definition is_close (e : event) : bool :=
  match e with Sdk (TokenProvider_close _) _ => true | _ => false end.

Definition failed (e : event) : bool :=
  match e with Sdk _ (Raised _) => true | _ => false end.

(** No instance operation before an affirmative answer. *)
Fixpoint confirmed_first (confirmed : bool) (evs : list event) : bool :=
  match evs with
  | [] => true
  | Prompt _ answer :: rest => confirmed_first (confirmed || answer) rest
  | e :: rest =>
      (negb (instance_operation_event e) || confirmed) && confirmed_first confirmed rest
  end.

(** After a call that raised, nothing but the release of the token handle. *)
Fixpoint stops_at_failure (evs : list event) : bool :=
  match evs with
  | [] => true
  | e :: rest =>
      if failed e then forallb is_close rest else stops_at_failure rest
  end.

(** [xs] occurs in [ys] in order, other elements allowed in between. *)
Fixpoint subsequence (xs ys : list step) : bool :=
  match xs, ys with
  | [], _ => true
  | _ :: _, [] => false
  | x :: xs', y :: ys' =>
      if decide (x = y) then subsequence xs' ys' else subsequence xs ys'
  end.

(** ** What the platform keeps of an instance

    The state a successful call leaves behind: a stopped instance is
    ["stopped"], a started one ["running"], and a reassigned one belongs to
    the owner it was given.  Instances are told apart by the object the
    lookup returned, owners are recorded per instance id. *)
Module Steam.

Record State := {
  status_of : pyval -> pyval;
  owner_of : pyval -> pyval;
}.

Definition update (f : pyval -> pyval) (k v : pyval) : pyval -> pyval :=
  fun x => if decide (x = k) then v else f x.

Definition effect (s : State) (e : event) : State :=
  match e with
  | Sdk (DriverlessInstance_stop inst) (Returned _) =>
      {| status_of := update (status_of s) inst (PyStr "stopped");
         owner_of := owner_of s |}
  | Sdk (DriverlessInstance_start inst _) (Returned _) =>
      {| status_of := update (status_of s) inst (PyStr "running");
         owner_of := owner_of s |}
  | Sdk (set_driverless_instance_owner _ instance_id owner) (Returned _) =>
      {| status_of := status_of s;
         owner_of := update (owner_of s) instance_id owner |}
  | _ => s
  end.

Definition after (s : State) (evs : list event) : State :=
  fold_left effect evs s.

End Steam.

(** ** A scenario to run the script in

    One instance, ["dai-1"], object 4 with id 17, running and owned by
    ["alice"]; every call succeeds, the lookup finds the instance under its
    current owner only, and the status read is live. *)
Module Scenario.

Definition initial : Steam.State :=
  {| Steam.status_of := fun _ => PyStr "running";
     Steam.owner_of := fun _ => PyStr "alice" |}.

Definition platform (history : list event) (c : call) : reply :=
  let now := Steam.after initial history in
  match c with
  | TokenProvider_init _ _ _ => Returned (PyObject 1)
  | TokenProvider_call _ => Returned (PyStr "access-token")
  | h2osteam_api => Returned (PyObject 2)
  | DriverlessClient_init => Returned (PyObject 3)
  | DriverlessClient_get_instance _ name owner =>
      if decide (name = PyStr "dai-1" ∧ owner = Steam.owner_of now (PyInt 17))
      then Returned (PyObject 4) else Returned PyNone
  | getattr (PyObject 4) "id" => Returned (PyInt 17)
  | getattr (PyObject 4) "status" => Returned (Steam.status_of now (PyObject 4))
  | DriverlessInstance_connect _ => Returned (PyObject 5)
  | getattr (PyObject 5) "_backend" => Returned (PyObject 6)
  | getattr (PyObject 6) "admin" => Returned (PyObject 7)
  | getattr _ name => Raised ("no attribute " ++ name)
  | _ => Returned PyNone
  end.

Definition steam_url : string := "https://steam.example.com".

Definition credentials : gmap string string :=
  list_to_map [ ("refresh_token", "r3fr3sh"); ("client_id", "steam-cli");
                ("token_endpoint", "https://auth.example.com/token") ].

Definition config_file : FileContent :=
  Parsed {| ini_defaults := ∅;
            ini_sections := {[ steam_url := credentials ]} |}.

Definition world (answer : bool) : World :=
  {| cwd := {[ "h2oai.config" := config_file ]};
     user_confirms := fun _ => answer;
     sdk := platform |}.

(** The same platform, but the lookup finds nothing. *)
Definition world_without_instance : World :=
  {| cwd := {[ "h2oai.config" := config_file ]};
     user_confirms := fun _ => true;
     sdk := fun history c =>
              match c with
              | DriverlessClient_get_instance _ _ _ => Returned PyNone
              | _ => platform history c
              end |}.

(** The same platform, but [h2osteam.login] raises. *)
Definition world_login_fails : World :=
  {| cwd := {[ "h2oai.config" := config_file ]};
     user_confirms := fun _ => true;
     sdk := fun history c =>
              match c with
              | h2osteam_login _ _ => Raised "401 Unauthorized"
              | _ => platform history c
              end |}.

Definition config : Config.t :=
  {| Config.steam_url := steam_url;
     Config._config := {| configparser.proxy_parser :=
                            {| ini_defaults := ∅;
                               ini_sections := {[ steam_url := credentials ]} |};
                          configparser.proxy_name := steam_url |} |}.

Definition handler : CommandHandler.t :=
  {| CommandHandler.service := {| InstanceService.config := config |} |}.

(** [handler.handle("admin", "dai-1", "alice", "bob", None, None)] *)
Definition run (w : World) : result unit * list event :=
  CommandHandler.handle handler (PyStr "admin") (PyStr "dai-1") (PyStr "alice")
    (PyStr "bob") PyNone PyNone w [].

End Scenario.

(** ** The order of the workflow

    The steps of [CommandHandler.handle], lines 114-130, when the prompt is
    confirmed; [stop_first] says whether the status read at line 123 was
    ["running"]. *)
Definition handle_order (url admin_user_name instance_name old_user_name
    new_user_name instance_cpu instance_mem : pyval) (stop_first : bool) : list step :=
  [ Authenticate url; Confirm true; Locate instance_name old_user_name;
    Reassign admin_user_name ]
  ++ (if stop_first then [Stop] else [])
  ++ [ Start instance_cpu instance_mem; Transfer old_user_name new_user_name;
       Stop; Reassign new_user_name; LogResult "Transfer complete." ].

(** The order the specification documents: locate, confirm, then
    stop/reassign/start/transfer/reassign. *)
Definition documented_order (admin_user_name instance_name old_user_name
    new_user_name instance_cpu instance_mem : pyval) : list step :=
  [ Locate instance_name old_user_name; Confirm true;
    Stop; Reassign admin_user_name; Start instance_cpu instance_mem;
    Transfer old_user_name new_user_name; Reassign new_user_name ].

(** The five remote calls alone, in the documented order. *)
Definition documented_calls (admin_user_name old_user_name new_user_name
    instance_cpu instance_mem : pyval) : list step :=
  [ Stop; Reassign admin_user_name; Start instance_cpu instance_mem;
    Transfer old_user_name new_user_name; Reassign new_user_name ].

(** ** Command lines *)

Definition declared_flags : list string :=
  [ "--admin-user-name"; "--steam-url"; "--instance-name"; "--old-user-name";
    "--new-user-name"; "--instance-cpu"; "--instance-mem" ].

Definition required_flags : list string :=
  [ "--admin-user-name"; "--steam-url"; "--instance-name"; "--old-user-name";
    "--new-user-name" ].

(** A command line that gives each of the five required flags a value. *)
Definition full_command_line : list string :=
  [ "--admin-user-name"; "admin"; "--steam-url"; "https://steam.example.com";
    "--instance-name"; "dai-1"; "--old-user-name"; "alice";
    "--new-user-name"; "bob" ].

(** [argv] without [flag] and the value that follows it. *)
Fixpoint omit (flag : string) (argv : list string) : list string :=
  match argv with
  | f :: v :: rest =>
      if String.eqb f flag then omit flag rest else f :: v :: omit flag rest
  | other => other
  end.

(** The command the seven decorators of [parse_command_line_options] would
    make if they were applied to [instance_transfer]; the script never
    applies them. *)
Definition command_with_declared_options : click.Command :=
  let options := parse_command_line_options in
  let decorators :=
    omap (fun key => options !! key)
      [ "admin_user_name"; "steam_url"; "instance_name"; "old_user_name";
        "new_user_name"; "instance_cpu"; "instance_mem" ] in
  click.command (foldr click.decorate (click.pass_context instance_transfer) decorators).

(** A dictionary of the shape the docstring of [parse_command_line_options]
    promises: the values given on the command line. *)
Definition parsed_options : gmap string pyval :=
  list_to_map
    [ ("admin_user_name", PyStr "admin");
      ("steam_url", PyStr "https://steam.example.com/");
      ("instance_name", PyStr "dai-1");
      ("old_user_name", PyStr "alice");
      ("new_user_name", PyStr "bob");
      ("instance_cpu", PyNone);
      ("instance_mem", PyNone) ].

(** ** Runs without recovery

    A computation is [orderly] when it only adds to the trace, never leaves
    through [sys.exit], returns only if no call failed, and, when it raises,
    has made no call after the first failed one other than closing the token
    provider. *)
Definition orderly {A} (m : M A) : Prop :=
  forall w t, exists evs,
    snd (m w t) = t ++ evs
    /\ match fst (m w t) with
       | Return _ => existsb failed evs = false
       | Raise _ => stops_at_failure evs = true
       | SystemExit _ => False
       end.

(** The keys the try block reads from the dictionary of options. *)
Definition option_keys : list string :=
  [ "steam_url"; "admin_user_name"; "instance_name"; "old_user_name";
    "new_user_name"; "instance_cpu"; "instance_mem" ].

(** * Proofs *)

(** ** Running the script symbolically

    Every step of the script either asks the world or branches on a value:
    [execute] unfolds the script and follows each outcome in turn. *)

Ltac unfold_script :=
  cbv beta iota zeta delta
    [CommandHandler.handle CommandHandler.service
     InstanceService.steam_login InstanceService.get_instance
     InstanceService.set_instance_owner InstanceService.transfer_entities
     InstanceService.config
     Instance.id Instance.status Instance.stop Instance.start Instance.connect
     Instance.instance
     click_confirm logger_info logger_error emit bind ret raise ask_sdk
     read_property with_closing fst snd].

Ltac branch :=
  match goal with
  | |- context [Config.refresh_token ?c] => destruct (Config.refresh_token c) eqn:?
  | |- context [Config.client_id ?c] => destruct (Config.client_id c) eqn:?
  | |- context [Config.token_endpoint ?c] => destruct (Config.token_endpoint c) eqn:?
  | |- context [sdk ?w ?t ?c] => destruct (sdk w t c) eqn:?
  | |- context [is_None ?v] => destruct (is_None v) eqn:?
  | |- context [py_eq_str ?v ?s] => destruct (py_eq_str v s) eqn:?
  | |- context [user_confirms ?w ?s] => destruct (user_confirms w s) eqn:?
  end.

Ltac execute := unfold_script; repeat (branch; unfold_script).

(** The trace of a finished run is the old trace followed by new events. *)
Ltac trace_found :=
  rewrite <- ?app_assoc; simpl; eexists;
  split; [first [reflexivity | symmetry; apply app_nil_r]|].

(** ** The monad *)

Lemma bind_ret_l {A B} (a : A) (k : A -> M B) (w : World) (t : list event) :
  bind (ret a) k w t = k a w t.
Proof. reflexivity. Qed.

Lemma bind_ret_r {A} (m : M A) (w : World) (t : list event) :
  bind m ret w t = m w t.
Proof. unfold bind, ret. now destruct (m w t) as [[a|e|c] t']. Qed.

Lemma bind_assoc {A B C} (m : M A) (k : A -> M B) (h : B -> M C) (w : World)
    (t : list event) :
  bind (bind m k) h w t = bind m (fun a => bind (k a) h) w t.
Proof. unfold bind. now destruct (m w t) as [[a|e|c] t']. Qed.

(** An exception skips the rest of a sequence. *)
Lemma bind_raise {A B} (e : exn) (k : A -> M B) (w : World) (t : list event) :
  bind (raise e) k w t = (Raise e, t).
Proof. reflexivity. Qed.

(** ** Strings *)

Section Rstrip.

Variable chars : string.
Variable c : ascii.
Hypothesis c_stripped : Str.mem c chars = true.

Lemma rstrip_replicate (n : nat) :
  Str.rstrip chars (Str.replicate n c) = EmptyString.
Proof using c_stripped.
  induction n as [|n IH]; simpl; [reflexivity|].
  now rewrite IH, c_stripped.
Qed.

Lemma rstrip_app_replicate (s : string) (n : nat) :
  Str.rstrip chars (s ++ Str.replicate n c) = Str.rstrip chars s.
Proof using c_stripped.
  induction s as [|a s IH]; simpl.
  - apply rstrip_replicate.
  - now rewrite IH.
Qed.

Lemma rstrip_not_ending (s : string) :
  Str.ends_with c (Str.rstrip chars s) = false.
Proof using c_stripped.
  induction s as [|a s IH]; simpl; [reflexivity|].
  destruct (Str.rstrip chars s) as [|k kept] eqn:E.
  - destruct (Str.mem a chars) eqn:Ea; simpl; [reflexivity|].
    destruct (Ascii.eqb a c) eqn:Eac; [|reflexivity].
    apply Ascii.eqb_eq in Eac. subst a. congruence.
  - exact IH.
Qed.

Lemma rstrip_tail (s : string) :
  exists tail, s = (Str.rstrip chars s ++ tail)%string
               /\ Str.rstrip chars tail = EmptyString.
Proof.
  induction s as [|a s (tail & Hs & Ht)]; simpl.
  - now exists EmptyString.
  - destruct (Str.rstrip chars s) as [|k kept] eqn:E.
    + destruct (Str.mem a chars) eqn:Ea.
      * exists (String a s). split; [reflexivity|].
        simpl. now rewrite E, Ea.
      * exists tail. split; [|exact Ht].
        apply (f_equal (String a)) in Hs. exact Hs.
    + exists tail. split; [|exact Ht].
      apply (f_equal (String a)) in Hs. exact Hs.
Qed.

End Rstrip.

(** Stripping one character: what is dropped is a run of that character. *)
Lemma rstrip_one_char (c : ascii) (s : string) :
  exists k, s = (Str.rstrip (String c EmptyString) s ++ Str.replicate k c)%string.
Proof.
  induction s as [|a s [k IH]]; [now exists 0|].
  cbn [Str.rstrip Str.mem]. rewrite orb_false_r.
  destruct (Str.rstrip (String c EmptyString) s) as [|kept0 kept] eqn:E.
  - destruct (Ascii.eqb a c) eqn:Eac.
    + apply Ascii.eqb_eq in Eac as ->. exists (S k).
      apply (f_equal (String c)) in IH. exact IH.
    + exists k. apply (f_equal (String a)) in IH. exact IH.
  - exists k. apply (f_equal (String a)) in IH. exact IH.
Qed.

Lemma py_eq_str_true (v : pyval) (lit : string) :
  py_eq_str v lit = true <-> v = PyStr lit.
Proof.
  destruct v; simpl; try (split; [discriminate|intros [=]]).
  rewrite String.eqb_eq. split; [now intros ->|now intros [= ->]].
Qed.

Lemma is_None_true (v : pyval) : is_None v = true <-> v = PyNone.
Proof. destruct v; simpl; split; try discriminate; reflexivity. Qed.

(** ** Interpolation *)

Lemma append_empty (s : string) : (s ++ "")%string = s.
Proof.
  induction s as [|a s IH]; [reflexivity|].
  apply (f_equal (String a)) in IH. exact IH.
Qed.

Lemma append_snoc (s : string) (c : ascii) (rest : string) :
  ((s ++ String c EmptyString) ++ rest)%string = (s ++ String c rest)%string.
Proof.
  induction s as [|a s IH]; [reflexivity|].
  apply (f_equal (String a)) in IH. exact IH.
Qed.

(** Text without ['%'] is left as it is. *)
Lemma expand_plain (deeper : string -> string -> exn + string)
    (option section : string) (map : string -> Datatypes.option string)
    (rest : string) :
  Str.mem "%" rest = false ->
  forall accum,
    configparser.expand deeper option section map configparser.Plain rest accum
    = inr (accum ++ rest)%string.
Proof.
  induction rest as [|c rest IH]; intros H accum.
  - simpl. now rewrite append_empty.
  - change (Ascii.eqb "%" c || Str.mem "%" rest = false) in H.
    apply orb_false_elim in H as [Hc Hrest].
    cbn [configparser.expand]. rewrite Ascii.eqb_sym, Hc.
    rewrite (IH Hrest). now rewrite append_snoc.
Qed.

Lemma before_get_plain (option section : string)
    (map : string -> Datatypes.option string) (value : string) :
  Str.mem "%" value = false ->
  configparser.before_get option section map value = inr value.
Proof.
  intros H. unfold configparser.before_get. simpl.
  now rewrite (expand_plain _ _ _ _ _ H).
Qed.

(** ** Config *)

Ltac unfold_config :=
  cbv beta iota zeta delta
    [Config.__init__ Config._load_config str_rstrip os_path_exists read_world
     configparser.read configparser.getitem bind ret raise].

(** The constructor depends on its argument through the stripped URL only. *)
Lemma Config_init_stripped (a b : string) (w : World) (t : list event) :
  Str.rstrip "/" a = Str.rstrip "/" b ->
  Config.__init__ (PyStr a) w t = Config.__init__ (PyStr b) w t.
Proof. intros E. unfold_config. now rewrite E. Qed.

Lemma Config_init_fields (url : string) (w : World) (t t' : list event)
    (config : Config.t) :
  Config.__init__ (PyStr url) w t = (Return config, t') ->
  t' = t
  /\ Config.steam_url config = Str.rstrip "/" url
  /\ configparser.proxy_name (Config._config config) = Str.rstrip "/" url
  /\ exists ini, cwd w !! "h2oai.config" = Some (Parsed ini)
                 /\ configparser.proxy_parser (Config._config config) = ini.
Proof.
  unfold_config.
  destruct (cwd w !! "h2oai.config") as [[msg|ini]|] eqn:F; simpl; rewrite ?F;
    simpl; try (intros [=]; fail).
  destruct (String.eqb _ _); simpl.
  - intros [= <- <-]. simpl. repeat split. now exists ini.
  - destruct (ini_sections ini !! _); simpl; [|intros [=]].
    intros [= <- <-]. simpl. repeat split. now exists ini.
Qed.

(** C5, as stated, fails: in a file whose section is keyed by the Steam URL
    as it is given, with its slash at the end, [Config] does not find the
    section; it looks under the URL without the slash and raises [KeyError]. *)
Lemma the_section_of_the_url_as_given_is_not_found :
  let url := "https://steam.example.com/" in
  let ini := {| ini_defaults := ∅;
                ini_sections := {[ url := Scenario.credentials ]} |} in
  let w := {| cwd := {[ "h2oai.config" := Parsed ini ]};
              user_confirms := fun _ => true; sdk := Scenario.platform |} in
  ini_sections ini !! url = Some Scenario.credentials
  /\ Config.__init__ (PyStr url) w [] = (Raise (KeyError "https://steam.example.com"), []).
Proof. split; reflexivity. Qed.

(** C5, amended: [Config] reads [h2oai.config] and keeps the section keyed
    by the Steam URL without its trailing slashes.  Its [refresh_token],
    [client_id] and [token_endpoint] are the texts of that section, or else
    of the default section, expanded by the parser's interpolation, which
    leaves a text without ['%'] as it is and may raise; an option found in
    neither gives [None].  When the file is not in the working directory,
    constructing [Config] raises [ConfigException]. *)
Theorem Config_keeps_the_section_of_the_url (steam_url : string) (w : World)
    (t : list event) :
  (cwd w !! "h2oai.config" = None ->
     Config.__init__ (PyStr steam_url) w t
     = (Raise (ConfigException "Config file does not exist: h2oai.config"), t))
  /\ (forall ini items,
        cwd w !! "h2oai.config" = Some (Parsed ini) ->
        ini_sections ini !! Str.rstrip "/" steam_url = Some items ->
        let section := Str.rstrip "/" steam_url in
        let text_of (option : string) : Datatypes.option string :=
          match items !! option with
          | Some text => Some text
          | None => ini_defaults ini !! option
          end in
        let value_of (option : string) : exn + pyval :=
          match text_of option with
          | None => inr PyNone
          | Some text =>
              match configparser.before_get option section text_of text with
              | inl e => inl e
              | inr expanded => inr (PyStr expanded)
              end
          end in
        exists config,
          Config.__init__ (PyStr steam_url) w t = (Return config, t)
          /\ Config._config config
             = {| configparser.proxy_parser := ini;
                  configparser.proxy_name := section |}
          /\ Config.refresh_token config = value_of "refresh_token"
          /\ Config.client_id config = value_of "client_id"
          /\ Config.token_endpoint config = value_of "token_endpoint"
          /\ (forall option text,
                text_of option = Some text -> Str.mem "%" text = false ->
                value_of option = inr (PyStr text))
          /\ (forall option, text_of option = None -> value_of option = inr PyNone)).
Proof.
  split.
  - intros F. unfold_config. now rewrite F.
  - intros ini items F S section text_of value_of.
    exists {| Config.steam_url := Str.rstrip "/" steam_url;
              Config._config :=
                {| configparser.proxy_parser := ini;
                   configparser.proxy_name := Str.rstrip "/" steam_url |} |}.
    split.
    + unfold_config. rewrite F. simpl. rewrite F. simpl.
      destruct (String.eqb _ _); simpl; [reflexivity|]. now rewrite S.
    + split; [reflexivity|].
      unfold Config.refresh_token, Config.client_id, Config.token_endpoint,
        configparser.get, configparser._unify_values; simpl. rewrite S.
      split; [reflexivity|]. split; [reflexivity|]. split; [reflexivity|].
      unfold value_of. split.
      * intros option text -> Hplain. now rewrite before_get_plain.
      * now intros option ->.
Qed.

(** The scenario's file, read for a URL written with a trailing slash; and a
    working directory without the file. *)
Lemma Config_keeps_the_section_of_the_url_witness :
  (exists config,
     Config.__init__ (PyStr "https://steam.example.com/") (Scenario.world true) []
     = (Return config, [])
     /\ Config.refresh_token config = inr (PyStr "r3fr3sh")
     /\ Config.client_id config = inr (PyStr "steam-cli")
     /\ Config.token_endpoint config = inr (PyStr "https://auth.example.com/token"))
  /\ Config.__init__ (PyStr "https://steam.example.com/")
       {| cwd := ∅; user_confirms := fun _ => true; sdk := Scenario.platform |} []
     = (Raise (ConfigException "Config file does not exist: h2oai.config"), []).
Proof.
  split.
  - destruct (Config_keeps_the_section_of_the_url "https://steam.example.com/"
                (Scenario.world true) []) as [_ H].
    destruct (H {| ini_defaults := ∅;
                   ini_sections := {[ Scenario.steam_url := Scenario.credentials ]} |}
                Scenario.credentials eq_refl eq_refl)
      as (config & Hrun & _ & Hr & Hc & He & _).
    exists config. split; [exact Hrun|].
    rewrite Hr, Hc, He. repeat split.
  - apply (Config_keeps_the_section_of_the_url "https://steam.example.com/"
             {| cwd := ∅; user_confirms := fun _ => true; sdk := Scenario.platform |} []).
    reflexivity.
Defined.

(** A token endpoint written with a bare ['%'] in the file: the section is
    found, and reading the field raises. *)
Example a_percent_in_the_file :
  let ini := {| ini_defaults := ∅;
                ini_sections :=
                  {[ "https://steam.example.com" :=
                       ({[ "token_endpoint" := "https://auth.example.com/a%2Fb" ]}
                        : gmap string string) ]} |} in
  let w := {| cwd := {[ "h2oai.config" := Parsed ini ]};
              user_confirms := fun _ => true; sdk := Scenario.platform |} in
  exists config,
    Config.__init__ (PyStr "https://steam.example.com") w [] = (Return config, [])
    /\ Config.refresh_token config = inr PyNone
    /\ Config.token_endpoint config
       = inl (InterpolationSyntaxError "token_endpoint" "https://steam.example.com").
Proof. eexists. split; [reflexivity|]. split; reflexivity. Qed.

(** C9: [Config] strips every trailing ['/'] of the Steam URL, and nothing
    else; the section lookup and the login use the stripped form, so two
    URLs that differ only in trailing slashes make [Config] and [steam_login]
    behave alike. *)
Theorem trailing_slashes_make_no_difference (url : string) (n m : nat) (w : World)
    (t : list event) :
  let a := (url ++ Str.replicate n "/")%string in
  let b := (url ++ Str.replicate m "/")%string in
  let session (steam_url : string) : M unit :=
    (config <- Config.__init__ (PyStr steam_url) ;;
     InstanceService.steam_login {| InstanceService.config := config |})%py in
  (exists k, a = (Str.rstrip "/" a ++ Str.replicate k "/")%string)
  /\ Str.ends_with "/" (Str.rstrip "/" a) = false
  /\ Str.rstrip "/" a = Str.rstrip "/" b
  /\ Config.__init__ (PyStr a) w t = Config.__init__ (PyStr b) w t
  /\ session a w t = session b w t
  /\ forall config t',
       Config.__init__ (PyStr a) w t = (Return config, t') ->
       Config.steam_url config = Str.rstrip "/" a
       /\ configparser.proxy_name (Config._config config) = Str.rstrip "/" a
       /\ exists evs,
            snd (InstanceService.steam_login
                   {| InstanceService.config := config |} w t') = t' ++ evs
            /\ forall u, In (Authenticate u) (steps evs) ->
                         u = PyStr (Str.rstrip "/" a).
Proof.
  intros a b session.
  assert (E : Str.rstrip "/" a = Str.rstrip "/" b).
  { unfold a, b. now rewrite !(rstrip_app_replicate "/" "/" eq_refl). }
  split; [apply rstrip_one_char|].
  split; [now apply (rstrip_not_ending "/" "/")|].
  split; [exact E|].
  split; [now apply Config_init_stripped|].
  split.
  { unfold session, bind. now rewrite (Config_init_stripped a b w t E). }
  intros config t' Hrun.
  destruct (Config_init_fields _ _ _ _ _ Hrun) as (_ & Hu & Hp & _).
  split; [exact Hu|]. split; [exact Hp|].
  rewrite <- Hu. execute; trace_found; simpl; intros u H;
    repeat (destruct H as [H|H]; try discriminate; try (now injection H as <-));
    try contradiction.
Qed.

(** The scenario's file is found whether the URL is written with slashes at
    its end or without. *)
Example slashes_after_the_url :
  Str.rstrip "/" "https://steam.example.com///" = "https://steam.example.com"
  /\ fst (Config.__init__ (PyStr "https://steam.example.com///") (Scenario.world true) [])
     = Return Scenario.config.
Proof. split; reflexivity. Qed.

(** ** InstanceService *)

(** C7: [get_instance] raises [InstanceNotFoundException] exactly when the
    SDK lookup for the name and owner returns [None]; it returns exactly
    what the lookup found, wrapped in an [Instance] whose [id] and [status]
    read the wrapped object's. *)
Theorem get_instance_raises_iff_nothing_found (self : InstanceService.t)
    (instance_name owner : pyval) (w : World) (t : list event) :
  let lookup : M pyval :=
    (client <- ask_sdk DriverlessClient_init ;;
     ask_sdk (DriverlessClient_get_instance client instance_name owner))%py in
  let run := InstanceService.get_instance self instance_name owner w t in
  ((exists msg, fst run = Raise (InstanceNotFoundException msg))
   <-> fst (lookup w t) = Return PyNone)
  /\ (forall wrapped,
        fst run = Return wrapped
        <-> exists found, fst (lookup w t) = Return found /\ found <> PyNone
                          /\ wrapped = {| Instance.instance := found |})
  /\ (forall found,
        Instance.id {| Instance.instance := found |} = ask_sdk (getattr found "id")
        /\ Instance.status {| Instance.instance := found |}
           = ask_sdk (getattr found "status"))
  /\ snd run = snd (lookup w t).
Proof.
  cbv zeta.
  split; [|split; [|split]].
  - split.
    + intros [msg H]. revert H. execute; simpl; try (intros [=]; fail).
      intros _. match goal with H : is_None _ = true |- _ =>
                  now apply is_None_true in H as -> end.
    + execute; simpl; try (intros [=]; fail).
      * eauto.
      * intros [= ->]. discriminate.
  - intros wrapped. split.
    + execute; simpl; try (intros [=]; fail).
      intros [= <-]. eexists. repeat split.
      intros ->. discriminate.
    + intros (found & H & Hne & ->). revert H.
      execute; simpl; try (intros [=]; fail).
      * intros [= ->]. match goal with H : is_None _ = true |- _ =>
                         apply is_None_true in H end. contradiction.
      * now intros [= ->].
  - intros found. split; reflexivity.
  - execute; reflexivity.
Qed.

(** The scenario's lookup finds nothing for a name the platform does not
    know, and finds object 4 for ["dai-1"] of ["alice"]. *)
Lemma get_instance_raises_iff_nothing_found_witness :
  (exists msg,
     fst (InstanceService.get_instance {| InstanceService.config := Scenario.config |}
            (PyStr "dai-9") (PyStr "alice") (Scenario.world true) [])
     = Raise (InstanceNotFoundException msg))
  /\ fst (InstanceService.get_instance {| InstanceService.config := Scenario.config |}
            (PyStr "dai-1") (PyStr "alice") (Scenario.world true) [])
     = Return {| Instance.instance := PyObject 4 |}.
Proof.
  split.
  - apply (get_instance_raises_iff_nothing_found
             {| InstanceService.config := Scenario.config |}
             (PyStr "dai-9") (PyStr "alice") (Scenario.world true) []).
    reflexivity.
  - apply (get_instance_raises_iff_nothing_found
             {| InstanceService.config := Scenario.config |}
             (PyStr "dai-1") (PyStr "alice") (Scenario.world true) []).
    exists (PyObject 4). repeat split. discriminate.
Defined.

(** C8: [steam_login] closes the token provider on every path.  Either a
    field of the configuration could not be read, or the provider could not
    be made, and there is nothing to close; or the run ends with the
    provider's [close], preceded by the token request and, when that
    succeeded, by [h2osteam.login], whether it returned or raised. *)
Theorem steam_login_closes_the_token_provider (self : InstanceService.t) (w : World)
    (t : list event) :
  let config := InstanceService.config self in
  exists evs,
    snd (InstanceService.steam_login self w t) = t ++ evs
    /\ ((exists e,
           evs = []
           /\ fst (InstanceService.steam_login self w t) = Raise e
           /\ (Config.refresh_token config = inl e
               \/ Config.client_id config = inl e
               \/ Config.token_endpoint config = inl e))
        \/ exists refresh_token client_id token_endpoint_url,
             Config.refresh_token config = inr refresh_token
             /\ Config.client_id config = inr client_id
             /\ Config.token_endpoint config = inr token_endpoint_url
             /\ let acquire :=
                  TokenProvider_init refresh_token client_id token_endpoint_url in
                (exists msg, evs = [Sdk acquire (Raised msg)])
                \/ exists token_provider body released,
                     evs = Sdk acquire (Returned token_provider) :: body
                             ++ [Sdk (TokenProvider_close token_provider) released]
                     /\ existsb is_close body = false
                     /\ ((exists msg,
                            body = [Sdk (TokenProvider_call token_provider)
                                      (Raised msg)])
                         \/ exists access_token logged_in,
                              body = [Sdk (TokenProvider_call token_provider)
                                        (Returned access_token);
                                      Sdk (h2osteam_login
                                             (PyStr (Config.steam_url config))
                                             access_token) logged_in])).
Proof.
  cbv zeta.
  execute; trace_found;
    first
      [ left; eexists; split; [reflexivity|]; split; [reflexivity|]; tauto
      | right; eexists _, _, _; do 3 (split; [reflexivity|]);
        first
          [ left; eexists; reflexivity
          | right; eexists _, [_; _], _; split; [reflexivity|];
            split; [reflexivity|]; right; eexists _, _; reflexivity
          | right; eexists _, [_], _; split; [reflexivity|];
            split; [reflexivity|]; left; eexists; reflexivity ] ].
Qed.

(** The login of the scenario, refused by the platform: the provider is
    closed all the same, and the refusal goes on to the caller. *)
Example refused_login_closes_the_token_provider :
  InstanceService.steam_login {| InstanceService.config := Scenario.config |}
    Scenario.world_login_fails []
  = (Raise (SdkError "401 Unauthorized"),
     [ Sdk (TokenProvider_init (PyStr "r3fr3sh") (PyStr "steam-cli")
              (PyStr "https://auth.example.com/token")) (Returned (PyObject 1));
       Sdk (TokenProvider_call (PyObject 1)) (Returned (PyStr "access-token"));
       Sdk (h2osteam_login (PyStr "https://steam.example.com") (PyStr "access-token"))
         (Raised "401 Unauthorized");
       Sdk (TokenProvider_close (PyObject 1)) (Returned PyNone) ]).
Proof. reflexivity. Qed.

(** ** CommandHandler.handle *)

(** Membership in an explicit list of events, case by case. *)
Ltac each_event H :=
  simpl in H;
  repeat (destruct H as [H|H]; [try discriminate H; try (injection H as <- <-)|]);
  try contradiction.

Ltac find_event := solve [simpl; repeat (first [left; reflexivity | right])].

Lemma confirmed_first_sound (evs : list event) :
  forall confirmed, confirmed_first confirmed evs = true ->
  forall pre e post, evs = pre ++ e :: post ->
    instance_operation_event e = true ->
    confirmed = true \/ exists text, In (Prompt text true) pre.
Proof.
  induction evs as [|x evs IH]; intros confirmed Hc pre e post Heq Hop.
  - destruct pre; discriminate.
  - destruct pre as [|p pre]; simpl in Heq; injection Heq as -> ->.
    + destruct e; simpl in *; try discriminate.
      rewrite Hop in Hc. simpl in Hc. apply andb_prop in Hc as [-> _]. now left.
    + assert (Hrest : exists c', confirmed_first c' (pre ++ e :: post) = true
                                 /\ (c' = true -> confirmed = true
                                                   \/ exists text, p = Prompt text true)).
      { destruct p; simpl in Hc; try (apply andb_prop in Hc as [_ Hc]);
          try (exists confirmed; split; [exact Hc|tauto]).
        exists (confirmed || answer). split; [exact Hc|].
        destruct confirmed; [now left|]. simpl. intros ->. right. now exists text. }
      destruct Hrest as (c' & Hc' & Himp).
      destruct (IH c' Hc' pre e post eq_refl Hop) as [Htrue | [text Hin]].
      * destruct (Himp Htrue) as [?|[text ->]]; [now left|].
        right. exists text. now left.
      * right. exists text. now right.
Qed.

(** What every run of [handle] shows about the prompt. *)
Lemma handle_prompts (self : CommandHandler.t)
    (admin_user_name instance_name old_user_name new_user_name
       instance_cpu instance_mem : pyval) (w : World) (t : list event) :
  let run := CommandHandler.handle self admin_user_name instance_name old_user_name
               new_user_name instance_cpu instance_mem w t in
  let question :=
    CommandHandler.confirmation_text instance_name old_user_name new_user_name in
  exists evs,
    snd run = t ++ evs
    /\ confirmed_first false evs = true
    /\ (forall text answer, In (Prompt text answer) evs ->
          text = question /\ answer = user_confirms w question)
    /\ (user_confirms w question = false ->
          existsb instance_operation_event evs = false
          /\ exists e, fst run = Raise e /\ (In (Prompt question false) evs -> e = Abort)).
Proof.
  cbv zeta.
  execute; trace_found; (split; [reflexivity|]); split;
    try (intros text answer H; each_event H; now split);
    try (intros [=]; fail);
    intros _; (split; [reflexivity|]); eexists; (split; [reflexivity|]);
    intros H; each_event H; reflexivity.
Qed.

(** C6: no remote instance operation (lookup, stop, start, entity transfer,
    owner reassignment) is executed unless the confirmation prompt has been
    answered affirmatively before it; when the user declines, [handle] ends
    with [Abort] and no such call has been made. *)
Theorem nothing_happens_to_the_instance_unconfirmed (self : CommandHandler.t)
    (admin_user_name instance_name old_user_name new_user_name
       instance_cpu instance_mem : pyval) (w : World) (t : list event) :
  let run := CommandHandler.handle self admin_user_name instance_name old_user_name
               new_user_name instance_cpu instance_mem w t in
  let question :=
    CommandHandler.confirmation_text instance_name old_user_name new_user_name in
  exists evs,
    snd run = t ++ evs
    /\ (forall pre e post,
          evs = pre ++ e :: post -> instance_operation_event e = true ->
          user_confirms w question = true /\ In (Prompt question true) pre)
    /\ (user_confirms w question = false ->
          (forall e, In e evs -> instance_operation_event e = false)
          /\ exists e, fst run = Raise e /\ (In (Prompt question false) evs -> e = Abort)).
Proof.
  intros run question.
  destruct (handle_prompts self admin_user_name instance_name old_user_name
              new_user_name instance_cpu instance_mem w t)
    as (evs & Htrace & Hfirst & Hprompts & Hdeclined).
  exists evs. split; [exact Htrace|]. split.
  - intros pre e post Heq Hop.
    destruct (confirmed_first_sound evs false Hfirst pre e post Heq Hop)
      as [[=]|[text Hin]].
    destruct (Hprompts text true) as [-> Hanswer].
    { rewrite Heq. apply in_or_app. now left. }
    split; [now symmetry|exact Hin].
  - intros Hno. destruct (Hdeclined Hno) as [Hnone Hraise].
    split; [|exact Hraise].
    intros e Hin. destruct (instance_operation_event e) eqn:E; [|reflexivity].
    assert (existsb instance_operation_event evs = true)
      by (apply existsb_exists; eauto).
    congruence.
Qed.

(** The scenario, with a user who declines: the login, the prompt, and
    nothing else. *)
Lemma nothing_happens_to_the_instance_unconfirmed_witness :
  fst (Scenario.run (Scenario.world false)) = Raise Abort
  /\ forall e, In e (snd (Scenario.run (Scenario.world false))) ->
               instance_operation_event e = false.
Proof.
  destruct (nothing_happens_to_the_instance_unconfirmed Scenario.handler
              (PyStr "admin") (PyStr "dai-1") (PyStr "alice") (PyStr "bob")
              PyNone PyNone (Scenario.world false) [])
    as (evs & Htrace & _ & Hdeclined).
  destruct (Hdeclined eq_refl) as [Hnone _].
  split; [reflexivity|].
  intros e Hin. apply Hnone. fold Scenario.run in Htrace.
  simpl in Htrace. now rewrite <- Htrace.
Defined.

(** The run of the scenario with a user who confirms. *)
Lemma scenario_steps :
  fst (Scenario.run (Scenario.world true)) = Return tt
  /\ steps (snd (Scenario.run (Scenario.world true)))
     = [ Authenticate (PyStr "https://steam.example.com"); Confirm true;
         Locate (PyStr "dai-1") (PyStr "alice"); Reassign (PyStr "admin");
         Stop; Start PyNone PyNone; Transfer (PyStr "alice") (PyStr "bob");
         Stop; Reassign (PyStr "bob"); LogResult "Transfer complete." ].
Proof. split; reflexivity. Qed.

(** C1, as stated, fails: with the prompt confirmed and every call
    succeeding, the calls of the scenario are not made in the documented
    order stop/reassign/start/transfer/reassign (the first reassignment comes
    before the first stop, and a second stop follows the transfer), and the
    instance is located after the confirmation, not before. *)
Lemma documented_order_is_not_followed :
  let performed := steps (snd (Scenario.run (Scenario.world true))) in
  user_confirms (Scenario.world true)
    (CommandHandler.confirmation_text (PyStr "dai-1") (PyStr "alice") (PyStr "bob"))
  = true
  /\ fst (Scenario.run (Scenario.world true)) = Return tt
  /\ filter (fun s => bool_decide (s = Stop)) performed = [Stop; Stop]
  /\ subsequence
       (documented_calls (PyStr "admin") (PyStr "alice") (PyStr "bob") PyNone PyNone)
       performed = false
  /\ subsequence
       (documented_order (PyStr "admin") (PyStr "dai-1") (PyStr "alice") (PyStr "bob")
          PyNone PyNone)
       performed = false
  /\ subsequence [Locate (PyStr "dai-1") (PyStr "alice"); Confirm true] performed = false.
Proof. repeat split; vm_compute; reflexivity. Qed.

(** Membership in an explicit list of events, with the equations solved. *)
Ltac each_member H :=
  simpl in H;
  repeat (destruct H as [H|H]; [simplify_eq|]);
  try contradiction.

(** C1, amended: with the prompt confirmed, the steps of [handle] are, in
    this order: authenticate, confirm, locate the instance, reassign it to
    the administrator, stop it (exactly when its status has been read as
    ["running"]), start it, transfer the entities, stop it, reassign it to
    the new user, log the result.  Every run is a beginning of this
    sequence: it raises at the first call that fails, after which it only
    closes the token provider; a run that returns is all of the sequence,
    with no call having failed. *)
Theorem handle_follows_its_order (self : CommandHandler.t)
    (admin_user_name instance_name old_user_name new_user_name
       instance_cpu instance_mem : pyval) (w : World) (t : list event) :
  let run := CommandHandler.handle self admin_user_name instance_name old_user_name
               new_user_name instance_cpu instance_mem w t in
  let url :=
    PyStr (Config.steam_url (InstanceService.config (CommandHandler.service self))) in
  let order :=
    handle_order url admin_user_name instance_name old_user_name new_user_name
      instance_cpu instance_mem in
  user_confirms w
    (CommandHandler.confirmation_text instance_name old_user_name new_user_name) = true ->
  exists evs stop_first,
    snd run = t ++ evs
    /\ (exists rest, order stop_first = steps evs ++ rest)
    /\ (stop_first = true
        <-> exists instance,
              In (Sdk (getattr instance "status") (Returned (PyStr "running"))) evs)
    /\ stops_at_failure evs = true
    /\ (existsb failed evs = true -> exists e, fst run = Raise e)
    /\ (fst run = Return tt ->
          steps evs = order stop_first /\ existsb failed evs = false).
Proof.
  cbv zeta. unfold handle_order.
  execute; try (intros [=]; fail); intros _; rewrite <- ?app_assoc; simpl;
    try match goal with
        | H : py_eq_str _ _ = true |- _ => apply py_eq_str_true in H; subst
        end;
    eexists;
    first
      [ exists true;
        split; [first [reflexivity | symmetry; apply app_nil_r]|];
        split; [eexists; reflexivity|];
        split; [split; [intros _; eexists; find_event|reflexivity]|]
      | exists false;
        split; [first [reflexivity | symmetry; apply app_nil_r]|];
        split; [eexists; reflexivity|];
        split;
        [ split;
          [ intros [=]
          | intros [? H]; each_member H;
            match goal with
            | Hs : py_eq_str _ _ = false |- _ => vm_compute in Hs; discriminate Hs
            end ]
        | ] ];
    (split; [reflexivity|]);
    (split; [first [intros [=]; fail | intros _; eexists; reflexivity]|]);
    first [intros [=]; fail | intros _; split; reflexivity].
Qed.

(** The scenario with a user who confirms: the instance runs, so it is
    stopped first. *)
Lemma handle_follows_its_order_witness :
  user_confirms (Scenario.world true)
    (CommandHandler.confirmation_text (PyStr "dai-1") (PyStr "alice") (PyStr "bob"))
  = true
  /\ exists evs,
       snd (Scenario.run (Scenario.world true)) = [] ++ evs
       /\ steps evs
          = handle_order (PyStr Scenario.steam_url) (PyStr "admin") (PyStr "dai-1")
              (PyStr "alice") (PyStr "bob") PyNone PyNone true.
Proof.
  split; [reflexivity|].
  destruct (handle_follows_its_order Scenario.handler
              (PyStr "admin") (PyStr "dai-1") (PyStr "alice") (PyStr "bob")
              PyNone PyNone (Scenario.world true) [] eq_refl)
    as (evs & stop_first & Htrace & _ & Hstatus & _ & _ & Hall).
  exists evs. split; [exact Htrace|].
  destruct (Hall eq_refl) as [Hsteps _].
  assert (Hst : stop_first = true).
  { apply Hstatus. exists (PyObject 4).
    fold Scenario.run in Htrace. simpl in Htrace. rewrite <- Htrace.
    vm_compute. tauto. }
  now rewrite Hsteps, Hst.
Defined.

(** Every place at which a list of steps shows a [Stop]. *)
Ltac each_stop H :=
  simpl in H;
  repeat
    match type of H with
    | _ = ?pre ++ Stop :: _ =>
        destruct pre as [|? pre]; simpl in H;
        [ try discriminate H; try (injection H as <-)
        | first [discriminate H | injection H as <- H] ]
    end.

(** C10: in every run of [handle], a stop that does not come after the
    entity transfer is issued only when the status read ["running"].  In a
    run that returns, that first stop is issued exactly then; after the
    transfer the instance is stopped whatever its status, and the
    reassignment to the new user is the last remote call.  Hence the
    instance is left stopped and owned by [new_user_name]. *)
Theorem handle_leaves_the_instance_stopped_with_its_new_owner
    (self : CommandHandler.t)
    (admin_user_name instance_name old_user_name new_user_name
       instance_cpu instance_mem : pyval) (w : World) (t : list event) :
  let run := CommandHandler.handle self admin_user_name instance_name old_user_name
               new_user_name instance_cpu instance_mem w t in
  let url :=
    PyStr (Config.steam_url (InstanceService.config (CommandHandler.service self))) in
  exists evs,
    snd run = t ++ evs
    /\ (forall pre post,
          steps evs = pre ++ Stop :: post ->
          (exists instance,
             In (Sdk (getattr instance "status") (Returned (PyStr "running"))) evs)
          \/ exists username_from username_to,
               In (Transfer username_from username_to) pre)
    /\ (fst run = Return tt ->
        exists instance instance_id status,
          (exists client,
             In (Sdk (DriverlessClient_get_instance client instance_name old_user_name)
                   (Returned instance)) evs)
          /\ In (Sdk (getattr instance "status") (Returned status)) evs
          /\ steps evs
             = handle_order url admin_user_name instance_name old_user_name
                 new_user_name instance_cpu instance_mem (py_eq_str status "running")
          /\ (exists api none,
                last (filter (fun e => is_sdk_event e) evs)
                = Some (Sdk (set_driverless_instance_owner api instance_id
                               new_user_name) (Returned none)))
          /\ In (Sdk (getattr instance "id") (Returned instance_id)) evs
          /\ forall before : Steam.State,
               Steam.status_of (Steam.after before evs) instance = PyStr "stopped"
               /\ Steam.owner_of (Steam.after before evs) instance_id
                  = new_user_name).
Proof.
  cbv zeta. unfold handle_order.
  execute; trace_found;
    try match goal with
        | H : py_eq_str _ _ = true |- _ => apply py_eq_str_true in H; subst
        end;
    (split;
     [ intros pre post H; each_stop H;
       first [ left; eexists; find_event | right; eexists _, _; find_event ]
     | try (intros [=]; fail) ]);
    intros _; eexists _, _, _;
    (split; [eexists; find_event|]);
    (split; [find_event|]);
    (split; [try match goal with H : py_eq_str _ _ = false |- _ => rewrite H end;
             reflexivity|]);
    (split; [eexists _, _; reflexivity|]);
    (split; [find_event|]);
    intros before;
    cbn [Steam.after fold_left Steam.effect Steam.status_of Steam.owner_of];
    unfold Steam.update; split; case_decide; congruence.
Qed.

(** The scenario with a user who confirms: object 4, the instance, is left
    stopped, and id 17 belongs to ["bob"]. *)
Lemma handle_leaves_the_instance_stopped_with_its_new_owner_witness :
  exists evs instance instance_id,
    Scenario.run (Scenario.world true) = (Return tt, [] ++ evs)
    /\ Steam.status_of (Steam.after Scenario.initial evs) instance = PyStr "stopped"
    /\ Steam.owner_of (Steam.after Scenario.initial evs) instance_id = PyStr "bob".
Proof.
  destruct (handle_leaves_the_instance_stopped_with_its_new_owner Scenario.handler
              (PyStr "admin") (PyStr "dai-1") (PyStr "alice") (PyStr "bob")
              PyNone PyNone (Scenario.world true) [])
    as (evs & Htrace & _ & Hreturned).
  destruct (Hreturned eq_refl)
    as (instance & instance_id & status & _ & _ & _ & _ & _ & Hleft).
  exists evs, instance, instance_id.
  split; [|apply Hleft].
  fold Scenario.run in Htrace. now rewrite <- Htrace.
Defined.

(** ** Exceptions *)

Lemma stops_at_failure_app (evs1 evs2 : list event) :
  existsb failed evs1 = false ->
  stops_at_failure (evs1 ++ evs2) = stops_at_failure evs2.
Proof.
  induction evs1 as [|e evs1 IH]; simpl; [reflexivity|].
  intros H. apply orb_false_elim in H as [-> H]. now apply IH.
Qed.

Lemma stops_at_failure_none (evs : list event) :
  existsb failed evs = false -> stops_at_failure evs = true.
Proof.
  intros H. rewrite <- (app_nil_r evs). now rewrite stops_at_failure_app.
Qed.

Lemma stops_at_failure_close (evs : list event) (e : event) :
  stops_at_failure evs = true -> is_close e = true ->
  stops_at_failure (evs ++ [e]) = true.
Proof.
  intros H He. induction evs as [|x evs IH]; simpl in *.
  - now destruct (failed e).
  - destruct (failed x); [|now apply IH].
    rewrite forallb_app, H. simpl. now rewrite He.
Qed.

Section Orderly.

Context {A B : Type}.

Lemma orderly_ret (a : A) : orderly (ret a).
Proof. intros w t. exists []. now rewrite app_nil_r. Qed.

Lemma orderly_raise (e : exn) : orderly (@raise A e).
Proof. intros w t. exists []. now rewrite app_nil_r. Qed.

Lemma orderly_bind (m : M A) (k : A -> M B) :
  orderly m -> (forall a, orderly (k a)) -> orderly (bind m k).
Proof.
  intros Hm Hk w t. unfold bind.
  destruct (Hm w t) as (evs1 & Ht1 & Hr1).
  destruct (m w t) as [[a|e|c] t1]; simpl in *; subst t1.
  - destruct (Hk a w (t ++ evs1)) as (evs2 & Ht2 & Hr2).
    exists (evs1 ++ evs2). rewrite app_assoc. split; [exact Ht2|].
    destruct (fst (k a w (t ++ evs1))).
    + rewrite existsb_app, Hr1, Hr2. reflexivity.
    + now rewrite stops_at_failure_app.
    + exact Hr2.
  - now exists evs1.
  - contradiction.
Qed.

Lemma orderly_read_world (f : World -> A) : orderly (read_world f).
Proof. intros w t. exists []. now rewrite app_nil_r. Qed.

Lemma orderly_with_closing (thing : pyval) (body : pyval -> M A) :
  orderly (body thing) -> orderly (with_closing thing body).
Proof.
  intros Hb w t. unfold with_closing, ask_sdk.
  destruct (Hb w t) as (evs & Ht & Hr).
  destruct (body thing w t) as [r t1]; simpl in *; subst t1.
  destruct (sdk w (t ++ evs) (TokenProvider_close thing)) as [v|msg];
    eexists; rewrite <- app_assoc; (split; [reflexivity|]).
  - destruct r; [|apply stops_at_failure_close|]; try assumption; try reflexivity.
    rewrite existsb_app, Hr. reflexivity.
  - simpl. destruct r; [| |contradiction].
    + now rewrite stops_at_failure_app.
    + now apply stops_at_failure_close.
Qed.

End Orderly.

Lemma orderly_read_property {A} (value : exn + A) : orderly (read_property value).
Proof.
  intros w t. exists []. rewrite app_nil_r. now destruct value.
Qed.

Lemma orderly_ask_sdk (c : call) : orderly (ask_sdk c).
Proof.
  intros w t. unfold ask_sdk. destruct (sdk w t c); eexists; split; reflexivity.
Qed.

Lemma orderly_emit (e : event) : failed e = false -> orderly (emit e).
Proof.
  intros He w t. exists [e]. split; [reflexivity|]. simpl. now rewrite He.
Qed.

Lemma orderly_click_confirm (text : string) (abort : bool) :
  orderly (click_confirm text abort).
Proof.
  intros w t. unfold click_confirm.
  destruct (user_confirms w text); [|destruct abort]; eexists; split; reflexivity.
Qed.

Lemma orderly_dict_getitem (d : gmap string pyval) (key : string) :
  orderly (dict_getitem d key).
Proof.
  unfold dict_getitem. destruct (d !! key); [apply orderly_ret|apply orderly_raise].
Qed.

Create HintDb orderly.

#[local] Hint Resolve orderly_ret orderly_raise orderly_read_world orderly_ask_sdk
  orderly_read_property
  orderly_click_confirm orderly_dict_getitem orderly_with_closing : orderly.
#[local] Hint Extern 1 (orderly (bind _ _)) =>
  apply orderly_bind; [|intros ?] : orderly.
#[local] Hint Extern 1 (orderly (emit _)) =>
  apply orderly_emit; reflexivity : orderly.
#[local] Hint Extern 2 (orderly (if ?b then _ else _)) => destruct b : orderly.
#[local] Hint Extern 2 (orderly (match ?x with _ => _ end)) => destruct x : orderly.

Ltac orderly := auto 40 with orderly.

Lemma orderly_steam_login (self : InstanceService.t) :
  orderly (InstanceService.steam_login self).
Proof. unfold InstanceService.steam_login. orderly. Qed.

Lemma orderly_get_instance (self : InstanceService.t) (instance_name owner : pyval) :
  orderly (InstanceService.get_instance self instance_name owner).
Proof. unfold InstanceService.get_instance. orderly. Qed.

Lemma orderly_set_instance_owner (self : InstanceService.t) (instance : Instance.t)
    (owner : pyval) :
  orderly (InstanceService.set_instance_owner self instance owner).
Proof. unfold InstanceService.set_instance_owner, Instance.id. orderly. Qed.

Lemma orderly_transfer_entities (self : InstanceService.t) (instance : Instance.t)
    (username_from username_to : pyval) :
  orderly (InstanceService.transfer_entities self instance username_from username_to).
Proof. unfold InstanceService.transfer_entities, Instance.connect. orderly. Qed.

Lemma orderly_stop (instance : Instance.t) : orderly (Instance.stop instance).
Proof. unfold Instance.stop. orderly. Qed.

Lemma orderly_start (instance : Instance.t) (resources : list (string * pyval)) :
  orderly (Instance.start instance resources).
Proof. unfold Instance.start. orderly. Qed.

#[local] Hint Resolve orderly_steam_login orderly_get_instance
  orderly_set_instance_owner orderly_transfer_entities orderly_stop orderly_start
  : orderly.

Lemma orderly_handle (self : CommandHandler.t)
    (admin_user_name instance_name old_user_name new_user_name
       instance_cpu instance_mem : pyval) :
  orderly (CommandHandler.handle self admin_user_name instance_name old_user_name
             new_user_name instance_cpu instance_mem).
Proof. unfold CommandHandler.handle, Instance.status, logger_info. orderly. Qed.

Lemma orderly_Config (steam_url : pyval) : orderly (Config.__init__ steam_url).
Proof.
  unfold Config.__init__, Config._load_config, str_rstrip, os_path_exists,
    configparser.getitem.
  assert (forall path, orderly (configparser.read path)).
  { intros path w t. unfold configparser.read. exists [].
    rewrite app_nil_r. now destruct (cwd w !! path) as [[|]|]. }
  orderly.
Qed.

#[local] Hint Resolve orderly_handle orderly_Config : orderly.

Lemma orderly_transfer_with (options : gmap string pyval) :
  orderly (transfer_with options).
Proof. unfold transfer_with. orderly. Qed.

(** C3: whatever the dictionary of options, an exception raised during the
    run (by [Config], by the lookup, by any remote call) reaches the handler
    of [instance_transfer], which logs its traceback and ends the process
    with exit code 1; nothing is retried or undone, as no call follows the
    failed one but the release of the token provider.  A run that raises
    nothing ends the process with exit code 0. *)
Theorem exceptions_reach_the_top_level_handler (options : gmap string pyval)
    (ctx : click.Context) (w : World) (t : list event) :
  let body := transfer_with options in
  let guarded (_ : click.Context) : M unit := try_except body log_and_exit in
  let process := click.main (click.command (click.pass_context guarded)) [] in
  instance_transfer = (fun _ => try_except (transfer_with parse_command_line_options)
                                  log_and_exit)
  /\ exists evs,
       snd (body w t) = t ++ evs
       /\ match fst (body w t) with
          | Raise e =>
              stops_at_failure evs = true
              /\ guarded ctx w t
                 = (SystemExit 1, t ++ evs ++ [LogError (format_exception e)])
              /\ process w t = (1%Z, t ++ evs ++ [LogError (format_exception e)])
          | Return _ =>
              existsb failed evs = false
              /\ guarded ctx w t = (Return tt, t ++ evs)
              /\ process w t = (0%Z, t ++ evs)
          | SystemExit _ => False
          end.
Proof.
  cbv zeta. split; [reflexivity|].
  destruct (orderly_transfer_with options w t) as (evs & Htrace & Hresult).
  exists evs. split; [exact Htrace|].
  unfold click.main, click.command, click.pass_context, try_except, log_and_exit,
    logger_error, emit, sys_exit, bind. simpl.
  destruct (transfer_with options w t) as [[[]|e|c] t1]; simpl in *; subst t1.
  - repeat split. exact Hresult.
  - rewrite app_assoc. repeat split. exact Hresult.
  - exact Hresult.
Qed.

(** With the options given as text: the instance does not exist, so the
    process logs the traceback of [InstanceNotFoundException] and exits
    with 1. *)
Lemma exceptions_reach_the_top_level_handler_witness :
  exists evs,
    click.main
      (click.command
         (click.pass_context
            (fun _ => try_except (transfer_with parsed_options) log_and_exit)))
      [] Scenario.world_without_instance []
    = (1%Z,
       [] ++ evs
         ++ [LogError
               (format_exception
                  (InstanceNotFoundException
                     "Instance 'dai-1' belonging to 'alice' does not exist."))]).
Proof.
  destruct (exceptions_reach_the_top_level_handler parsed_options
              {| click.ctx_params := [] |} Scenario.world_without_instance [])
    as (_ & evs & _ & H).
  exists evs.
  change (fst (transfer_with parsed_options Scenario.world_without_instance []))
    with (@Raise unit (InstanceNotFoundException
                         "Instance 'dai-1' belonging to 'alice' does not exist."))
    in H.
  apply H.
Defined.

(** The same process in other worlds: no configuration file, a login that
    fails, and a transfer that succeeds. *)
Example missing_config_exits_1 :
  click.main
    (click.command
       (click.pass_context
          (fun _ => try_except (transfer_with parsed_options) log_and_exit)))
    [] {| cwd := ∅; user_confirms := fun _ => true; sdk := Scenario.platform |} []
  = (1%Z,
     [LogError
        (format_exception
           (ConfigException "Config file does not exist: h2oai.config"))]).
Proof. reflexivity. Qed.

Example failed_login_exits_1 :
  fst (click.main
         (click.command
            (click.pass_context
               (fun _ => try_except (transfer_with parsed_options) log_and_exit)))
         [] Scenario.world_login_fails []) = 1%Z.
Proof. reflexivity. Qed.

Example successful_transfer_exits_0 :
  fst (click.main
         (click.command
            (click.pass_context
               (fun _ => try_except (transfer_with parsed_options) log_and_exit)))
         [] (Scenario.world true) []) = 0%Z.
Proof. reflexivity. Qed.

(** ** The command line *)

Lemma parse_args_nothing_declared (argv : list string) :
  forall acc p,
    click.parse_args [] argv acc = inr p ->
    (click.help_requested acc = true -> click.help_requested p = true)
    /\ exists more, click.extra p = click.extra acc ++ more.
Proof.
  induction argv as [|arg rest IH]; intros acc p; simpl.
  - intros [= <-]. split; [tauto|]. exists []. now rewrite app_nil_r.
  - destruct (String.eqb arg "--").
    { intros [= <-]. simpl. split; [tauto|]. now exists rest. }
    destruct (click.is_option_token arg).
    + destruct (click.split_eq arg) as [name explicit].
      destruct (String.eqb name "--help"); [|discriminate].
      destruct explicit; [discriminate|].
      intros H. apply IH in H as [Hhelp Hextra]. simpl in *.
      split; [intros _; now apply Hhelp|exact Hextra].
    + intros H. apply IH in H as [Hhelp [more Hextra]]. simpl in *.
      split; [exact Hhelp|]. exists (arg :: more).
      now rewrite Hextra, <- app_assoc.
Qed.

(** The body of the command runs for the empty command line and for ["--"]
    alone; click ends every other one itself. *)
Lemma body_runs_without_arguments_only (argv : list string) :
  (exists ctx, click.make_context instance_transfer_command argv = click.Invoke ctx)
  <-> argv = [] \/ argv = ["--"].
Proof.
  unfold click.make_context. simpl.
  destruct argv as [|arg rest]; simpl.
  { split; [now left|]. intros _. now eexists. }
  destruct (String.eqb arg "--") eqn:Edash.
  { apply String.eqb_eq in Edash as ->. simpl.
    destruct rest; simpl.
    - split; [now right|]. intros _. now eexists.
    - split; [intros [ctx [=]]|intros [[=]|[=]]]. }
  assert (Hne : ~ (arg :: rest = [] \/ arg :: rest = ["--"])).
  { intros [[=]|[= -> _]]. discriminate. }
  split; [|tauto]. intros [ctx H]. exfalso. revert H.
  destruct (click.is_option_token arg).
  - destruct (click.split_eq arg) as [name explicit].
    destruct (String.eqb name "--help"); [|discriminate].
    destruct explicit; [discriminate|].
    destruct (click.parse_args [] rest _) as [e|p] eqn:P; [discriminate|].
    apply parse_args_nothing_declared in P as [Hhelp _].
    now rewrite Hhelp.
  - destruct (click.parse_args [] rest _) as [e|p] eqn:P; [discriminate|].
    apply parse_args_nothing_declared in P as [_ [more Hextra]].
    destruct (click.help_requested p); [discriminate|].
    simpl in *. rewrite Hextra. discriminate.
Qed.

Lemma body_raises_AttributeError (w : World) (t : list event) :
  instance_transfer_body w t
  = (Raise (AttributeError "'function' object has no attribute 'rstrip'"), t).
Proof. reflexivity. Qed.

(** C2, as stated, fails: when the Steam URL is given on the command line,
    click ends the process with exit code 2, since the command has no such
    option, and no traceback is logged. *)
Lemma a_flag_on_the_command_line_exits_2 :
  let outcome :=
    script ["--steam-url"; "https://steam.example.com"] (Scenario.world true) [] in
  outcome = (2%Z, [Terminal "Error: No such option: --steam-url"])
  /\ fst outcome <> 1%Z
  /\ forall msg, ~ In (LogError msg) (snd outcome).
Proof.
  cbv zeta. split; [reflexivity|]. split; [discriminate|].
  intros msg [[=]|[]].
Qed.

(** C2, amended: no invocation, whatever its arguments and the files of the
    working directory, makes a remote call.  When click runs the body of
    the command, which it does for a command line without arguments only,
    the process logs the traceback of the [AttributeError] that
    [steam_url.rstrip] raises on a decorator object, and exits with 1; every
    other command line is ended by click, with exit code 2 after a usage
    error and 0 after [--help]. *)
Theorem script_never_calls_the_platform (argv : list string) (w : World)
    (t : list event) :
  exists evs,
    snd (script argv w t) = t ++ evs
    /\ existsb is_sdk_event evs = false
    /\ match click.make_context instance_transfer_command argv with
       | click.Invoke _ =>
           fst (script argv w t) = 1%Z
           /\ evs = [LogError
                       (format_exception
                          (AttributeError
                             "'function' object has no attribute 'rstrip'"))]
       | click.Rejected e =>
           fst (script argv w t) = 2%Z /\ evs = [Terminal (click.show e)]
       | click.ShowHelp =>
           fst (script argv w t) = 0%Z
           /\ evs = [Terminal (click.help_text instance_transfer_command)]
       end
    /\ ((exists ctx,
           click.make_context instance_transfer_command argv = click.Invoke ctx)
        <-> argv = [] \/ argv = ["--"]).
Proof.
  unfold script, click.main.
  destruct (click.make_context instance_transfer_command argv) as [e| |ctx] eqn:D;
    eexists; (split; [reflexivity|]); (split; [reflexivity|]);
    (split; [now split|]); rewrite <- D; apply body_runs_without_arguments_only.
Qed.

(** C4 on the code: the command has no parameter.  A command line that
    gives the five required flags is rejected at the first of them, each of
    the seven flags is unknown to the command, and the command line that
    omits them all is accepted. *)
Theorem declared_options_are_not_parameters (w : World) (t : list event) :
  click.params instance_transfer_command = []
  /\ script full_command_line w t
     = (2%Z, t ++ [Terminal "Error: No such option: --admin-user-name"])
  /\ (forall flag value,
        In flag declared_flags ->
        click.make_context instance_transfer_command [flag; value]
        = click.Rejected (click.NoSuchOption flag))
  /\ click.make_context instance_transfer_command []
     = click.Invoke {| click.ctx_params := [] |}.
Proof.
  split; [reflexivity|]. split; [reflexivity|]. split; [|reflexivity].
  intros flag value H. simpl in H.
  repeat (destruct H as [<-|H]; [reflexivity|]). contradiction.
Qed.

(** Had the seven decorators been applied to [instance_transfer], the command
    would take the flags and insist on the first five. *)
Lemma declared_options_would_be_parameters :
  click.make_context command_with_declared_options full_command_line
  = click.Invoke
      {| click.ctx_params :=
           [ ("admin_user_name", PyStr "admin");
             ("steam_url", PyStr "https://steam.example.com");
             ("instance_name", PyStr "dai-1");
             ("old_user_name", PyStr "alice");
             ("new_user_name", PyStr "bob");
             ("instance_cpu", PyNone);
             ("instance_mem", PyNone) ] |}
  /\ (forall flag,
        In flag required_flags ->
        click.make_context command_with_declared_options (omit flag full_command_line)
        = click.Rejected (click.MissingParameter flag))
  /\ click.make_context command_with_declared_options
       (full_command_line ++ ["--instance-cpu"; "8"; "--instance-mem=64"])
     = click.Invoke
         {| click.ctx_params :=
              [ ("admin_user_name", PyStr "admin");
                ("steam_url", PyStr "https://steam.example.com");
                ("instance_name", PyStr "dai-1");
                ("old_user_name", PyStr "alice");
                ("new_user_name", PyStr "bob");
                ("instance_cpu", PyStr "8");
                ("instance_mem", PyStr "64") ] |}.
Proof.
  split; [vm_compute; reflexivity|]. split; [|vm_compute; reflexivity].
  intros flag H. simpl in H.
  repeat (destruct H as [<-|H]; [vm_compute; reflexivity|]). contradiction.
Qed.

(** * Further properties of the script *)

(** ** Config, lines 51-76 *)

Lemma rstrip_cons (chars : string) (a : ascii) (s : string) :
  Str.rstrip chars (String a s)
  = match Str.rstrip chars s with
    | EmptyString => if Str.mem a chars then EmptyString else String a EmptyString
    | kept => String a kept
    end.
Proof. reflexivity. Qed.

Lemma rstrip_idempotent (chars s : string) :
  Str.rstrip chars (Str.rstrip chars s) = Str.rstrip chars s.
Proof.
  induction s as [|a s IH]; [reflexivity|].
  rewrite rstrip_cons.
  destruct (Str.rstrip chars s) as [|k kept] eqn:E.
  - destruct (Str.mem a chars) eqn:Ea; [reflexivity|].
    rewrite rstrip_cons. simpl. now rewrite Ea.
  - rewrite rstrip_cons, IH. reflexivity.
Qed.

(** X1: constructing [Config] asks nothing of the platform and logs nothing,
    whatever its argument; it fails in four ways only: [AttributeError] for
    an argument that is not a [str] (even when the file is missing),
    [ConfigException] for a missing file, the parser's error for a malformed
    one, and [KeyError], carrying the stripped URL, for a file without that
    section. *)
Theorem Config_fails_in_four_ways_and_calls_nothing (steam_url : pyval)
    (w : World) (t : list event) :
  snd (Config.__init__ steam_url w t) = t
  /\ match fst (Config.__init__ steam_url w t) with
     | Return config =>
         exists s ini,
           steam_url = PyStr s
           /\ cwd w !! "h2oai.config" = Some (Parsed ini)
           /\ Config.steam_url config = Str.rstrip "/" s
           /\ Config._config config
              = {| configparser.proxy_parser := ini;
                   configparser.proxy_name := Str.rstrip "/" s |}
           /\ (Str.rstrip "/" s = "DEFAULT"
               \/ is_Some (ini_sections ini !! Str.rstrip "/" s))
     | Raise (AttributeError _) => forall s, steam_url <> PyStr s
     | Raise (ConfigException _) =>
         (exists s, steam_url = PyStr s) /\ cwd w !! "h2oai.config" = None
     | Raise (ConfigParserError msg) =>
         (exists s, steam_url = PyStr s)
         /\ cwd w !! "h2oai.config" = Some (Malformed msg)
     | Raise (KeyError key) =>
         exists s ini,
           steam_url = PyStr s /\ key = Str.rstrip "/" s
           /\ cwd w !! "h2oai.config" = Some (Parsed ini)
           /\ ini_sections ini !! key = None /\ key <> "DEFAULT"
     | Raise _ => False
     | SystemExit _ => False
     end.
Proof.
  unfold_config.
  destruct steam_url as [|s|n|d|ref]; try (split; [reflexivity|discriminate]).
  destruct (cwd w !! "h2oai.config") as [[msg|ini]|] eqn:F; simpl; rewrite ?F; simpl;
    try (split; [reflexivity|]; split; [now exists s|reflexivity]).
  destruct (String.eqb (Str.rstrip "/" s) configparser.default_section) eqn:D; simpl.
  - split; [reflexivity|]. exists s, ini. repeat split.
    left. now apply String.eqb_eq in D.
  - destruct (ini_sections ini !! Str.rstrip "/" s) as [items|] eqn:S; simpl.
    + split; [reflexivity|]. exists s, ini. repeat split. right. now exists items.
    + split; [reflexivity|]. exists s, ini. repeat split; try assumption.
      now apply String.eqb_neq in D.
Qed.

(** X2: the URL a [Config] holds is a fixed point of the constructor: a
    [Config] made again from [config.steam_url] is the same [Config]. *)
Theorem Config_of_its_own_url (steam_url : string) (w : World) (t t' : list event)
    (config : Config.t) :
  Config.__init__ (PyStr steam_url) w t = (Return config, t') ->
  Config.__init__ (PyStr (Config.steam_url config)) w t = (Return config, t).
Proof.
  intros H.
  destruct (Config_init_fields _ _ _ _ _ H) as (-> & Hu & _).
  rewrite <- H. apply Config_init_stripped.
  rewrite Hu. apply rstrip_idempotent.
Qed.

Lemma Config_of_its_own_url_witness :
  Config.__init__ (PyStr "https://steam.example.com//") (Scenario.world true) []
  = (Return Scenario.config, [])
  /\ Config.__init__ (PyStr (Config.steam_url Scenario.config)) (Scenario.world true) []
     = (Return Scenario.config, []).
Proof.
  split; [reflexivity|].
  apply (Config_of_its_own_url "https://steam.example.com//" (Scenario.world true)
           [] []).
  reflexivity.
Defined.

(** ** InstanceService.steam_login, lines 85-91 *)

(** X3: [steam_login] returns exactly when the three fields of the
    configuration could be read and none of its calls raised; when a field
    cannot be read, nothing is called.  An exception of [close] is the one
    the caller sees, also when the login itself had raised; the login's
    exception is seen when [close] returns. *)
Theorem close_has_the_last_word (self : InstanceService.t) (w : World)
    (t : list event) :
  let run := InstanceService.steam_login self w t in
  let config := InstanceService.config self in
  let fields_read :=
    exists refresh_token client_id token_endpoint_url,
      Config.refresh_token config = inr refresh_token
      /\ Config.client_id config = inr client_id
      /\ Config.token_endpoint config = inr token_endpoint_url in
  exists evs,
    snd run = t ++ evs
    /\ (fst run = Return tt <-> fields_read /\ existsb failed evs = false)
    /\ (~ fields_read -> evs = [] /\ exists e, fst run = Raise e)
    /\ (forall token_provider msg,
          In (Sdk (TokenProvider_close token_provider) (Raised msg)) evs ->
          fst run = Raise (SdkError msg))
    /\ (forall url access_token msg,
          In (Sdk (h2osteam_login url access_token) (Raised msg)) evs ->
          (exists token_provider none,
             In (Sdk (TokenProvider_close token_provider) (Returned none)) evs
             /\ fst run = Raise (SdkError msg))
          \/ exists token_provider msg',
               In (Sdk (TokenProvider_close token_provider) (Raised msg')) evs).
Proof.
  cbv zeta.
  execute; trace_found;
    (split;
     [ split;
       [ intros Hret; first
           [ discriminate Hret
           | split; [eexists _, _, _; repeat split; reflexivity|reflexivity] ]
       | intros [(? & ? & ? & ? & ? & ?) Hfail]; first [reflexivity | simplify_eq] ]
     | ]);
    (split;
     [ intros Hnot; first
         [ split; [reflexivity|eexists; reflexivity]
         | exfalso; apply Hnot; eexists _, _, _; repeat split; reflexivity ]
     | ]);
    (split; [intros ? ? H; each_member H; reflexivity|]);
    intros ? ? ? H; each_member H;
    first [ left; eexists _, _; split; [find_event|reflexivity]
          | right; eexists _, _; find_event ].
Qed.

(** The scenario with a refresh token the parser cannot expand: the login
    is not attempted. *)
Example an_unreadable_field_stops_the_login :
  let ini := {| ini_defaults := ∅;
                ini_sections :=
                  {[ Scenario.steam_url :=
                       ({[ "refresh_token" := "a%b" ]} : gmap string string) ]} |} in
  let config :=
    {| Config.steam_url := Scenario.steam_url;
       Config._config := {| configparser.proxy_parser := ini;
                            configparser.proxy_name := Scenario.steam_url |} |} in
  InstanceService.steam_login {| InstanceService.config := config |}
    (Scenario.world true) []
  = (Raise (InterpolationSyntaxError "refresh_token" Scenario.steam_url), []).
Proof. reflexivity. Qed.

(** ** CommandHandler.handle, lines 113-130 *)

(** Every way of cutting an explicit list of events at one of them. *)
Ltac each_position H :=
  simpl in H;
  repeat
    match type of H with
    | _ = ?pre ++ _ :: _ =>
        destruct pre as [|? pre]; simpl in H;
        [ simplify_eq | first [discriminate H | injection H as <- H] ]
    end.

Lemma last_In {A} (l : list A) (x : A) : last l = Some x -> In x l.
Proof.
  induction l as [|a [|b l] IH]; simpl; intros H.
  - discriminate.
  - injection H as ->. now left.
  - right. now apply IH.
Qed.

(** How a run of [handle] ends, and what it has logged by then. *)
Lemma handle_outcome (self : CommandHandler.t)
    (admin_user_name instance_name old_user_name new_user_name
       instance_cpu instance_mem : pyval) (w : World) (t : list event) :
  let run := CommandHandler.handle self admin_user_name instance_name old_user_name
               new_user_name instance_cpu instance_mem w t in
  exists evs,
    snd run = t ++ evs
    /\ match fst run with
       | Return _ =>
           last evs = Some (LogInfo "Transfer complete.")
           /\ existsb failed evs = false
       | Raise e =>
           (forall msg, ~ In (LogInfo msg) evs)
           /\ ((exists text, In (Prompt text false) evs) -> e = Abort)
           /\ ((forall text, user_confirms w text = false) ->
               existsb instance_operation_event evs = false)
       | SystemExit _ => False
       end
    /\ (forall msg, In (LogInfo msg) evs -> msg = "Transfer complete.")
    /\ (forall msg, ~ In (LogError msg) evs)
    /\ (forall msg, ~ In (Terminal msg) evs).
Proof.
  cbv zeta.
  execute; trace_found;
    (split;
     [ first
         [ split; reflexivity
         | split; [intros ? H; each_member H|];
           split;
           [ first [ reflexivity | intros [? H]; each_member H ]
           | first [ intros _; reflexivity
                   | intros Hno;
                     match goal with
                     | Hyes : user_confirms _ _ = true |- _ =>
                         rewrite Hno in Hyes; discriminate Hyes
                     end ] ] ]
     | ]);
    (split; [intros ? H; each_member H; reflexivity|]);
    split; intros ? H; each_member H.
Qed.

(** X4: the user is asked only after a login that succeeded and whose token
    provider has been closed: before the prompt the trace holds these four
    calls, each returned, and nothing else; the provider was made from the
    three fields of the configuration. *)
Theorem the_prompt_follows_a_completed_login (self : CommandHandler.t)
    (admin_user_name instance_name old_user_name new_user_name
       instance_cpu instance_mem : pyval) (w : World) (t : list event) :
  let run := CommandHandler.handle self admin_user_name instance_name old_user_name
               new_user_name instance_cpu instance_mem w t in
  let config := InstanceService.config (CommandHandler.service self) in
  exists evs,
    snd run = t ++ evs
    /\ forall pre text answer post,
         evs = pre ++ Prompt text answer :: post ->
         exists refresh_token client_id token_endpoint_url
                token_provider access_token logged_in closed,
           Config.refresh_token config = inr refresh_token
           /\ Config.client_id config = inr client_id
           /\ Config.token_endpoint config = inr token_endpoint_url
           /\ pre = [ Sdk (TokenProvider_init refresh_token client_id
                             token_endpoint_url) (Returned token_provider);
                      Sdk (TokenProvider_call token_provider) (Returned access_token);
                      Sdk (h2osteam_login (PyStr (Config.steam_url config))
                             access_token) (Returned logged_in);
                      Sdk (TokenProvider_close token_provider) (Returned closed) ].
Proof.
  cbv zeta.
  execute; trace_found; intros pre ? ? post H; each_position H;
    eexists _, _, _, _, _, _, _; repeat split; reflexivity.
Qed.

(** X5: ["Transfer complete."] is logged exactly when [handle] returns, as
    the last event of a run in which no call failed; [handle] logs nothing
    else. *)
Theorem completion_is_logged_iff_handle_returns (self : CommandHandler.t)
    (admin_user_name instance_name old_user_name new_user_name
       instance_cpu instance_mem : pyval) (w : World) (t : list event) :
  let run := CommandHandler.handle self admin_user_name instance_name old_user_name
               new_user_name instance_cpu instance_mem w t in
  exists evs,
    snd run = t ++ evs
    /\ (In (LogInfo "Transfer complete.") evs <-> fst run = Return tt)
    /\ (fst run = Return tt ->
          last evs = Some (LogInfo "Transfer complete.")
          /\ existsb failed evs = false)
    /\ (forall msg, In (LogInfo msg) evs -> msg = "Transfer complete.")
    /\ (forall msg, ~ In (LogError msg) evs).
Proof.
  cbv zeta.
  destruct (handle_outcome self admin_user_name instance_name old_user_name
              new_user_name instance_cpu instance_mem w t)
    as (evs & Htrace & Hend & Hinfo & Herror & _).
  exists evs. split; [exact Htrace|].
  destruct (fst (CommandHandler.handle _ _ _ _ _ _ _ _ _)) as [[]|e|c].
  - destruct Hend as [Hlast Hnone].
    repeat split; try assumption. intros _. now apply last_In.
  - destruct Hend as [Hnot _].
    repeat split; try assumption; try discriminate.
    intros H. now apply Hnot in H.
  - contradiction.
Qed.

(** X6: [handle] does not roll back.  The owners it sets are
    [admin_user_name] and [new_user_name], nothing else: the old owner is
    set again only when one of these two names is the old owner's.  A run
    that raises after the first reassignment has succeeded leaves the
    instance with the administrator. *)
Theorem a_failed_transfer_is_not_rolled_back (self : CommandHandler.t)
    (admin_user_name instance_name old_user_name new_user_name
       instance_cpu instance_mem : pyval) (w : World) (t : list event) :
  let run := CommandHandler.handle self admin_user_name instance_name old_user_name
               new_user_name instance_cpu instance_mem w t in
  exists evs,
    snd run = t ++ evs
    /\ (forall owner,
          In (Reassign owner) (steps evs) ->
          owner = admin_user_name \/ owner = new_user_name)
    /\ (old_user_name <> admin_user_name -> old_user_name <> new_user_name ->
        ~ In (Reassign old_user_name) (steps evs))
    /\ (forall e api instance_id none,
          fst run = Raise e ->
          In (Sdk (set_driverless_instance_owner api instance_id admin_user_name)
                (Returned none)) evs ->
          forall before : Steam.State,
            Steam.owner_of (Steam.after before evs) instance_id = admin_user_name).
Proof.
  cbv zeta.
  execute; trace_found;
    (split; [intros ? H; each_member H; tauto|]);
    (split; [intros Ha Hn H; each_member H; congruence|]);
    intros ? ? ? ? Hraise H; try discriminate Hraise; each_member H;
    intros before;
    cbn [Steam.after fold_left Steam.effect Steam.status_of Steam.owner_of];
    unfold Steam.update; case_decide; congruence.
Qed.

(** The scenario, with a platform on which the instance cannot be started:
    id 17 stays with ["admin"]. *)
Lemma a_failed_transfer_is_not_rolled_back_witness :
  let w := {| cwd := ∅; user_confirms := fun _ => true;
              sdk := fun history c =>
                       match c with
                       | DriverlessInstance_start _ _ => Raised "out of capacity"
                       | _ => Scenario.platform history c
                       end |} in
  fst (Scenario.run w) = Raise (SdkError "out of capacity")
  /\ Steam.owner_of (Steam.after Scenario.initial (snd (Scenario.run w))) (PyInt 17)
     = PyStr "admin".
Proof.
  cbv zeta. split; [reflexivity|].
  destruct (a_failed_transfer_is_not_rolled_back Scenario.handler
              (PyStr "admin") (PyStr "dai-1") (PyStr "alice") (PyStr "bob")
              PyNone PyNone
              {| cwd := ∅; user_confirms := fun _ => true;
                 sdk := fun history c =>
                          match c with
                          | DriverlessInstance_start _ _ => Raised "out of capacity"
                          | _ => Scenario.platform history c
                          end |} [])
    as (evs & Htrace & _ & _ & Hleft).
  fold (Scenario.run {| cwd := ∅; user_confirms := fun _ => true;
                        sdk := fun history c =>
                                 match c with
                                 | DriverlessInstance_start _ _ =>
                                     Raised "out of capacity"
                                 | _ => Scenario.platform history c
                                 end |}) in Htrace, Hleft.
  rewrite Htrace. simpl app.
  apply (Hleft (SdkError "out of capacity") (PyObject 2) (PyInt 17) PyNone eq_refl).
  rewrite <- (app_nil_l evs), <- Htrace. vm_compute. tauto.
Defined.

(** X7: the entities are transferred on an instance that has been started
    and belongs to the administrator: when [transfer_entities] is called
    (with the old and the new user, in this order), the start and the
    reassignment to the administrator have succeeded and nothing has undone
    them. *)
Theorem entities_move_on_a_started_instance_of_the_administrator
    (self : CommandHandler.t)
    (admin_user_name instance_name old_user_name new_user_name
       instance_cpu instance_mem : pyval) (w : World) (t : list event) :
  let run := CommandHandler.handle self admin_user_name instance_name old_user_name
               new_user_name instance_cpu instance_mem w t in
  exists evs,
    snd run = t ++ evs
    /\ forall pre dai_admin username_from username_to outcome post,
         evs = pre ++ Sdk (admin_transfer_entities dai_admin username_from
                             username_to) outcome :: post ->
         username_from = old_user_name /\ username_to = new_user_name
         /\ exists instance instance_id,
              (exists client,
                 In (Sdk (DriverlessInstance_connect instance) (Returned client)) pre)
              /\ (exists api none,
                    In (Sdk (set_driverless_instance_owner api instance_id
                               admin_user_name) (Returned none)) pre)
              /\ forall before : Steam.State,
                   Steam.status_of (Steam.after before pre) instance = PyStr "running"
                   /\ Steam.owner_of (Steam.after before pre) instance_id
                      = admin_user_name.
Proof.
  cbv zeta.
  execute; trace_found; intros pre ? ? ? ? post H; each_position H;
    (split; [reflexivity|]); (split; [reflexivity|]);
    eexists _, _; (split; [eexists; find_event|]);
    (split; [eexists _, _; find_event|]);
    intros before;
    cbn [Steam.after fold_left Steam.effect Steam.status_of Steam.owner_of];
    unfold Steam.update; split; case_decide; congruence.
Qed.

(** ** The try block and its handler, lines 155-172 *)

Lemma Config_is_local (steam_url : pyval) (w : World) (t : list event) :
  exists r, Config.__init__ steam_url w t = (r, t)
            /\ r <> Raise Abort /\ forall c, r <> SystemExit c.
Proof.
  unfold_config.
  destruct steam_url as [|s|n|d|ref];
    try (eexists; split; [reflexivity|split; [discriminate|intros c; discriminate]]).
  destruct (cwd w !! "h2oai.config") as [[msg|ini]|] eqn:F; simpl; rewrite ?F; simpl;
    try (eexists; split; [reflexivity|split; [discriminate|intros c; discriminate]]).
  destruct (String.eqb _ _); simpl;
    [|destruct (ini_sections ini !! _); simpl];
    eexists; (split; [reflexivity|split; [discriminate|intros c; discriminate]]).
Qed.

(** The try block either raises before [handle], with the trace untouched
    and an exception that is not [Abort], or is a run of [handle]; it is the
    latter only if the dictionary has the seven keys. *)
Lemma transfer_with_cases (options : gmap string pyval) (w : World) (t : list event) :
  (exists e, transfer_with options w t = (Raise e, t) /\ e <> Abort)
  \/ ((forall key, In key option_keys -> is_Some (options !! key))
      /\ exists handler admin_user_name instance_name old_user_name new_user_name
           instance_cpu instance_mem,
           transfer_with options w t
           = CommandHandler.handle handler admin_user_name instance_name
               old_user_name new_user_name instance_cpu instance_mem w t).
Proof.
  unfold transfer_with, dict_getitem.
  destruct (options !! "steam_url") as [url|] eqn:K1;
    cbv beta iota delta [bind ret raise];
    [|left; eexists; split; [reflexivity|discriminate]].
  destruct (Config_is_local url w t) as (r & -> & Hr & Hc).
  destruct r as [config|e|code];
    [|left; eexists; split; [reflexivity|congruence]|now destruct (Hc code)].
  destruct (options !! "admin_user_name") as [a|] eqn:K2;
    cbv beta iota delta [bind ret raise];
    [|left; eexists; split; [reflexivity|discriminate]].
  destruct (options !! "instance_name") as [i|] eqn:K3;
    cbv beta iota delta [bind ret raise];
    [|left; eexists; split; [reflexivity|discriminate]].
  destruct (options !! "old_user_name") as [o|] eqn:K4;
    cbv beta iota delta [bind ret raise];
    [|left; eexists; split; [reflexivity|discriminate]].
  destruct (options !! "new_user_name") as [n|] eqn:K5;
    cbv beta iota delta [bind ret raise];
    [|left; eexists; split; [reflexivity|discriminate]].
  destruct (options !! "instance_cpu") as [c|] eqn:K6;
    cbv beta iota delta [bind ret raise];
    [|left; eexists; split; [reflexivity|discriminate]].
  destruct (options !! "instance_mem") as [m|] eqn:K7;
    cbv beta iota delta [bind ret raise];
    [|left; eexists; split; [reflexivity|discriminate]].
  right. split.
  - intros key H. simpl in H.
    repeat (destruct H as [<-|H]; [eauto|]). contradiction.
  - exists {| CommandHandler.service := {| InstanceService.config := config |} |},
      a, i, o, n, c, m. reflexivity.
Qed.

(** X8: the seven options are read, and [Config] is made, before anything
    is asked of the platform or of the user: when the dictionary lacks one
    of the seven keys, the try block raises with the trace untouched. *)
Theorem a_missing_option_stops_the_run_before_any_call
    (options : gmap string pyval) (key : string) (w : World) (t : list event) :
  In key option_keys ->
  options !! key = None ->
  exists e, transfer_with options w t = (Raise e, t).
Proof.
  intros Hkey Hnone.
  destruct (transfer_with_cases options w t) as [(e & H & _)|[Hall _]].
  - now exists e.
  - destruct (Hall key Hkey) as [v Hv]. congruence.
Qed.

Lemma a_missing_option_stops_the_run_before_any_call_witness :
  transfer_with (delete "new_user_name" parsed_options) (Scenario.world true) []
  = (Raise (KeyError "new_user_name"), []).
Proof.
  destruct (a_missing_option_stops_the_run_before_any_call
              (delete "new_user_name" parsed_options) "new_user_name"
              (Scenario.world true) [])
    as [e H].
  - vm_compute. tauto.
  - reflexivity.
  - rewrite H. f_equal.
    assert (E : fst (transfer_with (delete "new_user_name" parsed_options)
                       (Scenario.world true) []) = Raise (KeyError "new_user_name"))
      by reflexivity.
    rewrite H in E. exact E.
Defined.

(** The process that runs the try block with a given dictionary under the
    handler of [instance_transfer]. *)
Lemma process_of_the_try_block (options : gmap string pyval) (w : World)
    (t : list event) :
  click.main
    (click.command
       (click.pass_context
          (fun _ => try_except (transfer_with options) log_and_exit))) [] w t
  = match transfer_with options w t with
    | (Return _, t') => (0%Z, t')
    | (Raise e, t') => (1%Z, t' ++ [LogError (format_exception e)])
    | (SystemExit c, t') => (c, t')
    end.
Proof.
  unfold click.main, click.command, click.pass_context, try_except, log_and_exit,
    logger_error, emit, sys_exit, bind. simpl.
  now destruct (transfer_with options w t) as [[[]|e|c] t1].
Qed.

Lemma last_snoc_event (l : list event) (x : event) : last (l ++ [x]) = Some x.
Proof. apply last_snoc. Qed.

(** X9: the exit code tells whether the transfer completed.  The process
    exits with 0 or with 1; with 0, the last event is the log of
    ["Transfer complete."] and no error was logged; with 1, the last event
    is the logged traceback and ["Transfer complete."] was never logged. *)
Theorem exit_code_tells_whether_the_transfer_completed
    (options : gmap string pyval) (w : World) (t : list event) :
  let process :=
    click.main
      (click.command
         (click.pass_context
            (fun _ => try_except (transfer_with options) log_and_exit))) [] in
  exists evs,
    snd (process w t) = t ++ evs
    /\ ((fst (process w t) = 0%Z
         /\ last evs = Some (LogInfo "Transfer complete.")
         /\ forall msg, ~ In (LogError msg) evs)
        \/ (fst (process w t) = 1%Z
            /\ (exists e, last evs = Some (LogError (format_exception e)))
            /\ forall msg, ~ In (LogInfo msg) evs)).
Proof.
  cbv zeta. rewrite process_of_the_try_block.
  destruct (transfer_with_cases options w t)
    as [(e & -> & _)|(_ & h & a & i & o & n & c & m & ->)].
  - exists [LogError (format_exception e)]. split; [reflexivity|].
    right. split; [reflexivity|]. split; [now exists e|].
    intros msg [[=]|[]].
  - destruct (handle_outcome h a i o n c m w t)
      as (evs & Htrace & Hend & _ & Herror & _).
    destruct (CommandHandler.handle h a i o n c m w t) as [[[]|e|code] t1];
      simpl in *; subst t1.
    + exists evs. split; [reflexivity|]. left.
      destruct Hend as [Hlast _]. now repeat split.
    + exists (evs ++ [LogError (format_exception e)]).
      split; [now rewrite app_assoc|]. right.
      split; [reflexivity|]. split; [exists e; apply last_snoc_event|].
      destruct Hend as [Hnot _]. intros msg H.
      apply in_app_or in H as [H|[[=]|[]]]. now apply Hnot in H.
    + contradiction.
Qed.

(** X10: declining is an error.  With a user who answers no, the process
    exits with 1 and no operation on an instance has been made; when the
    prompt was reached, what the handler logs is the traceback of click's
    [Abort].  Click's own handling of [Abort] never comes into play: after
    the question itself, click prints no message (no ["Aborted!"], no
    usage error) and the interpreter prints no traceback. *)
Theorem declining_is_logged_as_an_error (options : gmap string pyval) (w : World)
    (t : list event) :
  (forall text, user_confirms w text = false) ->
  exists evs e,
    click.main
      (click.command
         (click.pass_context
            (fun _ => try_except (transfer_with options) log_and_exit))) [] w t
    = (1%Z, t ++ evs ++ [LogError (format_exception e)])
    /\ existsb instance_operation_event evs = false
    /\ ((exists text, In (Prompt text false) evs) -> e = Abort)
    /\ forall msg, ~ In (Terminal msg) (evs ++ [LogError (format_exception e)]).
Proof.
  intros Hno. rewrite process_of_the_try_block.
  destruct (transfer_with_cases options w t)
    as [(e & -> & _)|(_ & h & a & i & o & n & c & m & ->)].
  - exists [], e. split; [reflexivity|]. split; [reflexivity|].
    split; [intros [text []]|]. intros msg [[=]|[]].
  - destruct (handle_outcome h a i o n c m w t)
      as (evs & Htrace & Hend & _ & _ & Hterminal).
    destruct (handle_prompts h a i o n c m w t)
      as (evs' & Htrace' & _ & _ & Hdeclined).
    rewrite Htrace in Htrace'. apply app_inv_head in Htrace'. subst evs'.
    destruct (Hdeclined (Hno _)) as (_ & e' & He' & _).
    destruct (CommandHandler.handle h a i o n c m w t) as [[[]|e|code] t1];
      simpl in *; subst t1; try discriminate He'.
    exists evs, e. split; [now rewrite app_assoc|].
    destruct Hend as (_ & Habort & Hnone).
    split; [now apply Hnone|]. split; [exact Habort|].
    intros msg H. apply in_app_or in H as [H|[[=]|[]]]. now apply Hterminal in H.
Qed.

(** The scenario, with the options given as text and a user who declines. *)
Lemma declining_is_logged_as_an_error_witness :
  exists evs,
    click.main
      (click.command
         (click.pass_context
            (fun _ => try_except (transfer_with parsed_options) log_and_exit)))
      [] (Scenario.world false) []
    = (1%Z, [] ++ evs ++ [LogError (format_exception Abort)])
    /\ In (Prompt
             (CommandHandler.confirmation_text (PyStr "dai-1") (PyStr "alice")
                (PyStr "bob")) false) evs.
Proof.
  destruct (declining_is_logged_as_an_error parsed_options (Scenario.world false) [])
    as (evs & e & Hrun & _ & Habort & _); [reflexivity|].
  assert (Hin : In (Prompt
                      (CommandHandler.confirmation_text (PyStr "dai-1")
                         (PyStr "alice") (PyStr "bob")) false) evs).
  { assert (E : snd (click.main
                       (click.command
                          (click.pass_context
                             (fun _ => try_except (transfer_with parsed_options)
                                         log_and_exit)))
                       [] (Scenario.world false) [])
                = snd (Scenario.run (Scenario.world false))
                    ++ [LogError (format_exception Abort)]) by reflexivity.
    rewrite Hrun in E. simpl in E.
    assert (E' : evs = snd (Scenario.run (Scenario.world false))).
    { apply (f_equal (@rev event)) in E. rewrite !rev_app_distr in E. simpl in E.
      injection E as _ E. apply (f_equal (@rev event)) in E.
      now rewrite !rev_involutive in E. }
    rewrite E'. vm_compute. tauto. }
  exists evs. split; [|exact Hin].
  rewrite Hrun. rewrite (Habort (ex_intro (fun text => In (Prompt text false) evs) _ Hin)).
  reflexivity.
Defined.
